(** * provadorvirtual: the Gemini image service wrapper

    A shallow embedding of the two variants of the service wrapper,
    [src/services/geminiService.ts] (client built from a credential written
    in the file) and [src/unnamed/part_000] (client built from the build-time
    environment), and the properties of their response decoding and data-URL
    parsing. *)

From Stdlib Require Import List NArith Bool String Ascii Lia.
Import ListNotations.
Local Open Scope N_scope.

(** ** The JavaScript runtime pieces the wrapper relies on *)

Module JS.

(** A JavaScript string is a sequence of UTF-16 code units. *)
Definition jsstring : Type := list N.

(** Source literals are written as Rocq strings (UTF-8 bytes) and decoded
    to code units. *)
Fixpoint bytes_of (s : string) : list N :=
  match s with
  | EmptyString => []
  | String a s' => N_of_ascii a :: bytes_of s'
  end.

Definition units_of_code_point (cp : N) : list N :=
  if cp <? 65536 then [cp]
  else [55296 + (cp - 65536) / 1024; 56320 + (cp - 65536) mod 1024].

Fixpoint utf8_decode (bs : list N) : list N :=
  match bs with
  | [] => []
  | b0 :: t0 =>
      if b0 <? 128 then b0 :: utf8_decode t0
      else match t0 with
      | [] => [65533]
      | b1 :: t1 =>
          if b0 <? 224 then
            ((b0 mod 32) * 64 + b1 mod 64) :: utf8_decode t1
          else match t1 with
          | [] => [65533]
          | b2 :: t2 =>
              if b0 <? 240 then
                ((b0 mod 16) * 4096 + (b1 mod 64) * 64 + b2 mod 64)
                  :: utf8_decode t2
              else match t2 with
              | [] => [65533]
              | b3 :: t3 =>
                  units_of_code_point
                    ((b0 mod 8) * 262144 + (b1 mod 64) * 4096
                     + (b2 mod 64) * 64 + b3 mod 64) ++ utf8_decode t3
              end
          end
      end
  end.

Definition lit (s : string) : jsstring := utf8_decode (bytes_of s).
Arguments lit : simpl never.

Definition comma : N := 44.
Definition colon : N := 58.
Definition semicolon : N := 59.
Definition dquote : N := 34.

(** Truthiness of a value that is a string or undefined. *)
Definition truthy (v : option jsstring) : bool :=
  match v with
  | Some (_ :: _) => true
  | _ => false
  end.

(** Template-literal interpolation [${v}] of a string or undefined. *)
Definition interpolate (v : option jsstring) : jsstring :=
  match v with
  | Some s => s
  | None => lit "undefined"
  end.

(** [v || ''] for a string or undefined. *)
Definition or_empty (v : option jsstring) : jsstring :=
  if truthy v then interpolate v else [].

(** [String.prototype.split] with a one-unit separator: the pieces between
    the occurrences of the separator, always at least one piece. *)
Fixpoint split (sep : N) (s : jsstring) : list jsstring :=
  match s with
  | [] => [[]]
  | c :: s' =>
      if c =? sep then [] :: split sep s'
      else match split sep s' with
           | [] => [[c]]
           | piece :: pieces => (c :: piece) :: pieces
           end
  end.

(** Line terminators: LF, CR, LS, PS. *)
Definition isLineTerminator (c : N) : bool :=
  (c =? 10) || (c =? 13) || (c =? 8232) || (c =? 8233).

(** White space stripped by [String.prototype.trim]: the WhiteSpace code
    points (TAB, VT, FF, SP, NBSP, ZWNBSP and category Zs) and the line
    terminators. *)
Definition isWhiteSpace (c : N) : bool :=
  (c =? 9) || (c =? 11) || (c =? 12) || (c =? 32) || (c =? 160)
  || (c =? 5760) || ((8192 <=? c) && (c <=? 8202)) || (c =? 8239)
  || (c =? 8287) || (c =? 12288) || (c =? 65279) || isLineTerminator c.

Fixpoint trimStart (s : jsstring) : jsstring :=
  match s with
  | [] => []
  | c :: s' => if isWhiteSpace c then trimStart s' else s
  end.

Definition trimEnd (s : jsstring) : jsstring := rev (trimStart (rev s)).

Definition trim (s : jsstring) : jsstring := trimEnd (trimStart s).

(** The regular expression [/:(.*?);/] of [dataUrlToParts].  [.] matches any
    code unit but a line terminator. *)
Definition dot (c : N) : bool := negb (isLineTerminator c).

(** [(.*?);] tried at one position: the lazy star first tries to stop (the
    next unit is [;]) and otherwise consumes one [.]; the result is the text
    of group 1. *)
Fixpoint lazy_group_semicolon (s : jsstring) : option jsstring :=
  match s with
  | [] => None
  | c :: s' =>
      if c =? semicolon then Some []
      else if dot c then option_map (cons c) (lazy_group_semicolon s')
      else None
  end.

(** [s.match(/:(.*?);/)]: the start positions are tried from the left; the
    result is [null] ([None]) or the match array, of which only element 1
    (group 1) is read by the wrapper. *)
Fixpoint match_mime (s : jsstring) : option jsstring :=
  match s with
  | [] => None
  | c :: s' =>
      if c =? colon then
        match lazy_group_semicolon s' with
        | Some g => Some g
        | None => match_mime s'
        end
      else match_mime s'
  end.

(** A function either returns a value or throws [new Error(message)]. *)
Inductive completion (A : Type) : Type :=
| Return (value : A)
| Throw (message : jsstring).
Arguments Return {A} value.
Arguments Throw {A} message.

End JS.
Import JS.

(** ** The types of [@google/genai] as the wrapper reads and builds them

    Every field the wrapper reaches through optional chaining is optional. *)

Module GenAI.

Record Blob : Type := { mimeType : option jsstring; data : option jsstring }.

Record Part : Type := { inlineData : option Blob; text : option jsstring }.

Record Content : Type := { parts : option (list Part) }.

Record Candidate : Type :=
  { content : option Content; finishReason : option jsstring }.

Record PromptFeedback : Type :=
  { blockReason : option jsstring; blockReasonMessage : option jsstring }.

(** [text] is the accessor of the response class, read here as a field. *)
Record GenerateContentResponse : Type :=
  { promptFeedback : option PromptFeedback;
    candidates : option (list Candidate);
    response_text : option jsstring }.

Inductive Modality : Type := IMAGE | TEXT.

Record GenerateContentConfig : Type := { responseModalities : list Modality }.

Record GenerateContentParameters : Type :=
  { model : jsstring; contents : Content; config : GenerateContentConfig }.

(** The client object, [new GoogleGenAI({ apiKey })]. *)
Record GoogleGenAI : Type := { apiKey : option jsstring }.

Definition textPart (t : jsstring) : Part :=
  {| inlineData := None; text := Some t |}.

End GenAI.

(** The object [{ mimeType, data }] returned by [dataUrlToParts]. *)
Record DataUrlParts : Type := { mimeType : jsstring; data : jsstring }.

(** ** Asynchronous operations

    An [async] function is a tree of the two suspension points of the wrapper,
    the file read and the service call.  A rejected [await] is not caught
    anywhere in the wrapper, so a continuation only receives fulfilled
    values. *)

Module Async.

Section Async.
Variable File : Type.

Inductive async (A : Type) : Type :=
| Resolve (value : A)
| Reject (message : jsstring)
| ReadAsDataURL (file : File) (k : jsstring -> async A)
| GenerateContent (ai : GenAI.GoogleGenAI)
    (params : GenAI.GenerateContentParameters)
    (k : GenAI.GenerateContentResponse -> async A).

Arguments Resolve {A} value.
Arguments Reject {A} message.
Arguments ReadAsDataURL {A} file k.
Arguments GenerateContent {A} ai params k.

Fixpoint bind {A B : Type} (p : async A) (f : A -> async B) : async B :=
  match p with
  | Resolve a => f a
  | Reject m => Reject m
  | ReadAsDataURL file k => ReadAsDataURL file (fun s => bind (k s) f)
  | GenerateContent ai params k =>
      GenerateContent ai params (fun r => bind (k r) f)
  end.

(** A synchronous call inside an [async] function: a throw rejects. *)
Definition call {A : Type} (c : completion A) : async A :=
  match c with
  | Return a => Resolve a
  | Throw m => Reject m
  end.

(** What the outside world answers at the suspension points: a value, or a
    failure of its own ([Failure]: the reader's error event, a transport
    error). *)
Variable Failure : Type.

Record World : Type :=
  { readAsDataURL : File -> jsstring + Failure;
    generateContent :
      GenAI.GoogleGenAI -> GenAI.GenerateContentParameters ->
      GenAI.GenerateContentResponse + Failure }.

Inductive event : Type :=
| FileRead (file : File)
| NetworkCall (ai : GenAI.GoogleGenAI)
    (params : GenAI.GenerateContentParameters).

Inductive outcome (A : Type) : Type :=
| Fulfilled (value : A)
| Rejected (message : jsstring)
| Propagated (failure : Failure).

Arguments Fulfilled {A} value.
Arguments Rejected {A} message.
Arguments Propagated {A} failure.

(** Running an operation: the events it performs, in order, and how its
    promise settles. *)
Fixpoint run {A : Type} (w : World) (p : async A) : list event * outcome A :=
  match p with
  | Resolve a => ([], Fulfilled a)
  | Reject m => ([], Rejected m)
  | ReadAsDataURL file k =>
      match readAsDataURL w file with
      | inl s => let (es, o) := run w (k s) in (FileRead file :: es, o)
      | inr f => ([FileRead file], Propagated f)
      end
  | GenerateContent ai params k =>
      match generateContent w ai params with
      | inl r => let (es, o) := run w (k r) in (NetworkCall ai params :: es, o)
      | inr f => ([NetworkCall ai params], Propagated f)
      end
  end.

End Async.

Arguments Resolve {File A} value.
Arguments Reject {File A} message.
Arguments ReadAsDataURL {File A} file k.
Arguments GenerateContent {File A} ai params k.
Arguments bind {File A B} p f.
Arguments call {File A} c.
Arguments FileRead {File} file.
Arguments NetworkCall {File} ai params.
Arguments Fulfilled {Failure A} value.
Arguments Rejected {Failure A} message.
Arguments Propagated {Failure A} failure.
Arguments run {File Failure A} w p.
Arguments readAsDataURL {File Failure} w file.
Arguments generateContent {File Failure} w ai params.

End Async.
Import Async.

Declare Scope async_scope.
Delimit Scope async_scope with async.
Notation "x <- p ;; q" := (bind p (fun x => q))
  (at level 61, p at next level, right associativity) : async_scope.


Fixpoint string_eqb (a b : jsstring) : bool :=
  match a, b with
  | [], [] => true
  | x :: a', y :: b' => (x =? y) && string_eqb a' b'
  | _, _ => false
  end.

(** [v === s] for a value that is a string or undefined. *)
Definition strict_eq (v : option jsstring) (s : jsstring) : bool :=
  match v with
  | Some x => string_eqb x s
  | None => false
  end.

(** [o?.f] *)
Definition chain {A B : Type} (o : option A) (f : A -> option B) : option B :=
  match o with
  | Some a => f a
  | None => None
  end.

(** [o ?? []] *)
Definition or_nil {A : Type} (o : option (list A)) : list A :=
  match o with
  | Some l => l
  | None => []
  end.

Definition model : jsstring := lit "gemini-2.5-flash-image-preview".

(** ** [src/services/geminiService.ts]: the client is built from a credential
    written in the file *)

Module Hardcoded.

Definition dataUrlToParts (dataUrl : jsstring) : completion DataUrlParts :=
  let arr := split comma dataUrl in
  if Nat.ltb (List.length arr) 2 then Throw (lit "Invalid data URL")
  else
    match match_mime (nth 0 arr []) with
    | None (* !mimeMatch *) =>
        Throw (lit "Could not parse MIME type from data URL")
    | Some group1 =>
        if negb (truthy (Some group1)) (* !mimeMatch[1] *) then
          Throw (lit "Could not parse MIME type from data URL")
        else Return {| mimeType := group1; data := nth 1 arr [] |}
    end.

Definition dataUrlToPart (dataUrl : jsstring) : completion GenAI.Part :=
  match dataUrlToParts dataUrl with
  | Throw m => Throw m
  | Return p =>
      Return {| GenAI.inlineData :=
                  Some {| GenAI.mimeType := Some (mimeType p);
                          GenAI.data := Some (data p) |};
                GenAI.text := None |}
  end.

(** The body of the loop over the candidates: [Some] is the value returned
    from inside the loop, [None] is the loop running to its end. *)
Fixpoint scan_candidates (cs : list GenAI.Candidate) : option jsstring :=
  match cs with
  | [] => None
  | candidate :: rest =>
      let imagePart :=
        chain (chain (GenAI.content candidate) GenAI.parts)
          (find (fun part =>
                   match GenAI.inlineData part with
                   | Some _ => true
                   | None => false
                   end)) in
      match chain imagePart GenAI.inlineData with
      | Some inline =>
          Some (lit "data:" ++ interpolate (GenAI.mimeType inline)
                ++ lit ";base64," ++ interpolate (GenAI.data inline))
      | None => scan_candidates rest
      end
  end.

Definition handleApiResponse (response : GenAI.GenerateContentResponse)
  : completion jsstring :=
  let blockReason := chain (GenAI.promptFeedback response) GenAI.blockReason in
  if truthy blockReason then
    let blockReasonMessage :=
      chain (GenAI.promptFeedback response) GenAI.blockReasonMessage in
    Throw (lit "A solicitação foi bloqueada. Motivo: "
           ++ interpolate blockReason ++ lit ". "
           ++ or_empty blockReasonMessage)
  else
    match scan_candidates (or_nil (GenAI.candidates response)) with
    | Some dataUrl => Return dataUrl
    | None =>
        let finishReason :=
          chain (chain (GenAI.candidates response) (fun cs => nth_error cs 0))
            GenAI.finishReason in
        if truthy finishReason && negb (strict_eq finishReason (lit "STOP"))
        then
          Throw (lit "A geração de imagem parou inesperadamente. Motivo: "
                 ++ interpolate finishReason
                 ++ lit ". Isso geralmente está relacionado às configurações de segurança.")
        else
          let textFeedback := option_map trim (GenAI.response_text response) in
          Throw (lit "O modelo de IA não retornou uma imagem. "
                 ++ (if truthy textFeedback then
                       lit "O modelo respondeu com o texto: " ++ [dquote]
                       ++ interpolate textFeedback ++ [dquote]
                     else
                       lit "Isso pode acontecer devido a filtros de segurança ou se a solicitação for muito complexa. Por favor, tente uma imagem diferente."))
    end.

Section Operations.
Variable File : Type.

(** The credential literal of the file; its value plays no part in what
    follows and is not repeated here. *)
Variable credential : jsstring.

Definition ai : GenAI.GoogleGenAI := {| GenAI.apiKey := Some credential |}.

Definition fileToPart (file : File) : async File GenAI.Part :=
  (dataUrl <- ReadAsDataURL file Resolve ;;
   p <- call (dataUrlToParts dataUrl) ;;
   Resolve {| GenAI.inlineData :=
                Some {| GenAI.mimeType := Some (mimeType p);
                        GenAI.data := Some (data p) |};
              GenAI.text := None |})%async.

Definition request (parts : list GenAI.Part) : GenAI.GenerateContentParameters :=
  {| GenAI.model := model;
     GenAI.contents := {| GenAI.parts := Some parts |};
     GenAI.config :=
       {| GenAI.responseModalities := [GenAI.IMAGE; GenAI.TEXT] |} |}.

Definition modelPrompt : jsstring :=
  lit "Você é uma IA especialista em fotografia de moda. Transforme a pessoa nesta imagem em uma foto de modelo de corpo inteiro para um site de e-commerce. O fundo deve ser um estúdio neutro e limpo (cinza claro, #f0f0f0). A pessoa deve ter uma expressão de modelo neutra e profissional. Preserve a identidade da pessoa, características únicas e tipo de corpo, mas coloque-a em uma pose de modelo padrão, relaxada и em pé. A imagem final deve ser fotorrealista. Retorne APENAS a imagem final.".

Definition tryOnPrompt : jsstring :=
  lit "Você é uma IA especialista em provador virtual. Você receberá uma 'imagem da modelo' e uma 'imagem da peça de roupa'. Sua tarefa é criar uma nova imagem fotorrealista onde a pessoa da 'imagem da modelo' está vestindo a roupa da 'imagem da peça de roupa'.

**Regras Cruciais:**
1.  **Substituição Completa da Roupa:** Você DEVE remover e substituir COMPLETAMENTE a peça de roupa usada pela pessoa na 'imagem da modelo' pela nova peça. Nenhuma parte da roupa original (por exemplo, golas, mangas, estampas) deve ser visível na imagem final.
2.  **Preservar a Modelo:** O rosto, cabelo, formato do corpo e pose da pessoa da 'imagem da modelo' DEVEM permanecer inalterados.
3.  **Preservar o Fundo:** Todo o fundo da 'imagem da modelo' DEVE ser preservado perfeitamente.
4.  **Aplicar a Peça de Roupa:** Ajuste realisticamente a nova peça de roupa na pessoa. Ela deve se adaptar à pose com dobras, sombras e iluminação naturais consistentes com a cena original.
5.  **Saída:** Retorne APENAS a imagem final editada. Não inclua nenhum texto.".

Definition posePrompt (poseInstruction : jsstring) : jsstring :=
  lit "Você é uma IA especialista em fotografia de moda. Pegue esta imagem e gere-a novamente de uma perspectiva diferente. A pessoa, a roupa e o estilo do fundo devem permanecer idênticos. A nova perspectiva deve ser: "
  ++ [dquote] ++ poseInstruction ++ [dquote]
  ++ lit ". Retorne APENAS a imagem final.".

Definition generateModelImage (userImage : File) : async File jsstring :=
  (userImagePart <- fileToPart userImage ;;
   let prompt := modelPrompt in
   response <-
     GenerateContent ai (request [userImagePart; GenAI.textPart prompt])
       Resolve ;;
   call (handleApiResponse response))%async.

Definition generateVirtualTryOnImage (modelImageUrl : jsstring)
    (garmentImage : File) : async File jsstring :=
  (modelImagePart <- call (dataUrlToPart modelImageUrl) ;;
   garmentImagePart <- fileToPart garmentImage ;;
   let prompt := tryOnPrompt in
   response <-
     GenerateContent ai
       (request [modelImagePart; garmentImagePart; GenAI.textPart prompt])
       Resolve ;;
   call (handleApiResponse response))%async.

Definition generatePoseVariation (tryOnImageUrl poseInstruction : jsstring)
  : async File jsstring :=
  (tryOnImagePart <- call (dataUrlToPart tryOnImageUrl) ;;
   let prompt := posePrompt poseInstruction in
   response <-
     GenerateContent ai (request [tryOnImagePart; GenAI.textPart prompt])
       Resolve ;;
   call (handleApiResponse response))%async.

End Operations.

End Hardcoded.

(** ** [src/unnamed/part_000]: the client is built from the build-time
    environment, and is absent when no key is configured *)

Module EnvKey.

(** [import.meta.env], when the code runs in a build. *)
Record ImportMetaEnv : Type := { VITE_API_KEY : option jsstring }.


Definition dataUrlToParts (dataUrl : jsstring) : completion DataUrlParts :=
  let arr := split comma dataUrl in
  if Nat.ltb (List.length arr) 2 then Throw (lit "Invalid data URL")
  else
    match match_mime (nth 0 arr []) with
    | None (* !mimeMatch *) =>
        Throw (lit "Could not parse MIME type from data URL")
    | Some group1 =>
        if negb (truthy (Some group1)) (* !mimeMatch[1] *) then
          Throw (lit "Could not parse MIME type from data URL")
        else Return {| mimeType := group1; data := nth 1 arr [] |}
    end.

Definition dataUrlToPart (dataUrl : jsstring) : completion GenAI.Part :=
  match dataUrlToParts dataUrl with
  | Throw m => Throw m
  | Return p =>
      Return {| GenAI.inlineData :=
                  Some {| GenAI.mimeType := Some (mimeType p);
                          GenAI.data := Some (data p) |};
                GenAI.text := None |}
  end.

(** The body of the loop over the candidates: [Some] is the value returned
    from inside the loop, [None] is the loop running to its end. *)
Fixpoint scan_candidates (cs : list GenAI.Candidate) : option jsstring :=
  match cs with
  | [] => None
  | candidate :: rest =>
      let imagePart :=
        chain (chain (GenAI.content candidate) GenAI.parts)
          (find (fun part =>
                   match GenAI.inlineData part with
                   | Some _ => true
                   | None => false
                   end)) in
      match chain imagePart GenAI.inlineData with
      | Some inline =>
          Some (lit "data:" ++ interpolate (GenAI.mimeType inline)
                ++ lit ";base64," ++ interpolate (GenAI.data inline))
      | None => scan_candidates rest
      end
  end.

Definition handleApiResponse (response : GenAI.GenerateContentResponse)
  : completion jsstring :=
  let blockReason := chain (GenAI.promptFeedback response) GenAI.blockReason in
  if truthy blockReason then
    let blockReasonMessage :=
      chain (GenAI.promptFeedback response) GenAI.blockReasonMessage in
    Throw (lit "A solicitação foi bloqueada. Motivo: "
           ++ interpolate blockReason ++ lit ". "
           ++ or_empty blockReasonMessage)
  else
    match scan_candidates (or_nil (GenAI.candidates response)) with
    | Some dataUrl => Return dataUrl
    | None =>
        let finishReason :=
          chain (chain (GenAI.candidates response) (fun cs => nth_error cs 0))
            GenAI.finishReason in
        if truthy finishReason && negb (strict_eq finishReason (lit "STOP"))
        then
          Throw (lit "A geração de imagem parou inesperadamente. Motivo: "
                 ++ interpolate finishReason
                 ++ lit ". Isso geralmente está relacionado às configurações de segurança.")
        else
          let textFeedback := option_map trim (GenAI.response_text response) in
          Throw (lit "O modelo de IA não retornou uma imagem. "
                 ++ (if truthy textFeedback then
                       lit "O modelo respondeu com o texto: " ++ [dquote]
                       ++ interpolate textFeedback ++ [dquote]
                     else
                       lit "Isso pode acontecer devido a filtros de segurança ou se a solicitação for muito complexa. Por favor, tente uma imagem diferente."))
    end.

Section Operations.
Variable File : Type.

Variable env : option ImportMetaEnv.

Definition API_KEY : option jsstring :=
  match env with
  | Some e => VITE_API_KEY e
  | None => None
  end.

(** The module initialiser; the console message of the first branch is not
    modelled. *)
Definition ai : option GenAI.GoogleGenAI :=
  if negb (truthy API_KEY) then None
  else Some {| GenAI.apiKey := API_KEY |}.

Definition isApiKeyConfigured : bool := negb (negb (truthy API_KEY)).

Definition getAiInstance : completion GenAI.GoogleGenAI :=
  match ai with
  | None =>
      Throw (lit "A chave de API do Google Gemini não está configurada. Por favor, adicione VITE_API_KEY às suas variáveis de ambiente no Netlify e faça o redeploy.")
  | Some client => Return client
  end.

Definition fileToPart (file : File) : async File GenAI.Part :=
  (dataUrl <- ReadAsDataURL file Resolve ;;
   p <- call (dataUrlToParts dataUrl) ;;
   Resolve {| GenAI.inlineData :=
                Some {| GenAI.mimeType := Some (mimeType p);
                        GenAI.data := Some (data p) |};
              GenAI.text := None |})%async.

Definition request (parts : list GenAI.Part) : GenAI.GenerateContentParameters :=
  {| GenAI.model := model;
     GenAI.contents := {| GenAI.parts := Some parts |};
     GenAI.config :=
       {| GenAI.responseModalities := [GenAI.IMAGE; GenAI.TEXT] |} |}.

Definition modelPrompt : jsstring :=
  lit "Você é uma IA especialista em fotografia de moda. Transforme a pessoa nesta imagem em uma foto de modelo de corpo inteiro para um site de e-commerce. O fundo deve ser um estúdio neutro e limpo (cinza claro, #f0f0f0). A pessoa deve ter uma expressão de modelo neutra e profissional. Preserve a identidade da pessoa, características únicas e tipo de corpo, mas coloque-a em uma pose de modelo padrão, relaxada и em pé. A imagem final deve ser fotorrealista. Retorne APENAS a imagem final.".

Definition tryOnPrompt : jsstring :=
  lit "Você é uma IA especialista em provador virtual. Você receberá uma 'imagem da modelo' e uma 'imagem da peça de roupa'. Sua tarefa é criar uma nova imagem fotorrealista onde a pessoa da 'imagem da modelo' está vestindo a roupa da 'imagem da peça de roupa'.

**Regras Cruciais:**
1.  **Substituição Completa da Roupa:** Você DEVE remover e substituir COMPLETAMENTE a peça de roupa usada pela pessoa na 'imagem da modelo' pela nova peça. Nenhuma parte da roupa original (por exemplo, golas, mangas, estampas) deve ser visível na imagem final.
2.  **Preservar a Modelo:** O rosto, cabelo, formato do corpo e pose da pessoa da 'imagem da modelo' DEVEM permanecer inalterados.
3.  **Preservar o Fundo:** Todo o fundo da 'imagem da modelo' DEVE ser preservado perfeitamente.
4.  **Aplicar a Peça de Roupa:** Ajuste realisticamente a nova peça de roupa na pessoa. Ela deve se adaptar à pose com dobras, sombras e iluminação naturais consistentes com a cena original.
5.  **Saída:** Retorne APENAS a imagem final editada. Não inclua nenhum texto.".

Definition posePrompt (poseInstruction : jsstring) : jsstring :=
  lit "Você é uma IA especialista em fotografia de moda. Pegue esta imagem e gere-a novamente de uma perspectiva diferente. A pessoa, a roupa e o estilo do fundo devem permanecer idênticos. A nova perspectiva deve ser: "
  ++ [dquote] ++ poseInstruction ++ [dquote]
  ++ lit ". Retorne APENAS a imagem final.".

Definition generateModelImage (userImage : File) : async File jsstring :=
  (ai <- call getAiInstance ;;
   userImagePart <- fileToPart userImage ;;
   let prompt := modelPrompt in
   response <-
     GenerateContent ai (request [userImagePart; GenAI.textPart prompt])
       Resolve ;;
   call (handleApiResponse response))%async.

Definition generateVirtualTryOnImage (modelImageUrl : jsstring)
    (garmentImage : File) : async File jsstring :=
  (ai <- call getAiInstance ;;
   modelImagePart <- call (dataUrlToPart modelImageUrl) ;;
   garmentImagePart <- fileToPart garmentImage ;;
   let prompt := tryOnPrompt in
   response <-
     GenerateContent ai
       (request [modelImagePart; garmentImagePart; GenAI.textPart prompt])
       Resolve ;;
   call (handleApiResponse response))%async.

Definition generatePoseVariation (tryOnImageUrl poseInstruction : jsstring)
  : async File jsstring :=
  (ai <- call getAiInstance ;;
   tryOnImagePart <- call (dataUrlToPart tryOnImageUrl) ;;
   let prompt := posePrompt poseInstruction in
   response <-
     GenerateContent ai (request [tryOnImagePart; GenAI.textPart prompt])
       Resolve ;;
   call (handleApiResponse response))%async.

End Operations.

End EnvKey.

(** ** Vocabulary of the specification *)

Module Spec.

(** The parts of a candidate, in order ([candidate.content?.parts]). *)
Definition parts_of (c : GenAI.Candidate) : list GenAI.Part :=
  or_nil (chain (GenAI.content c) GenAI.parts).

Definition no_image_part (p : GenAI.Part) : Prop := GenAI.inlineData p = None.

Definition no_image (c : GenAI.Candidate) : Prop :=
  Forall no_image_part (parts_of c).

(** The response signals no block reason at the top level. *)
Definition no_block_reason (r : GenAI.GenerateContentResponse) : Prop :=
  truthy (chain (GenAI.promptFeedback r) GenAI.blockReason) = false.

(** The Image Reference built from embedded image data. *)
Definition image_reference (inline : GenAI.Blob) : jsstring :=
  lit "data:" ++ interpolate (GenAI.mimeType inline)
  ++ lit ";base64," ++ interpolate (GenAI.data inline).

(** The messages of the decode failures. *)
Definition Blocked (reason message : jsstring) : jsstring :=
  lit "A solicitação foi bloqueada. Motivo: " ++ reason ++ lit ". " ++ message.

Definition Interrupted (status : jsstring) : jsstring :=
  lit "A geração de imagem parou inesperadamente. Motivo: " ++ status
  ++ lit ". Isso geralmente está relacionado às configurações de segurança.".

Definition NoImage_with_text (t : jsstring) : jsstring :=
  lit "O modelo de IA não retornou uma imagem. "
  ++ lit "O modelo respondeu com o texto: " ++ [dquote] ++ t ++ [dquote].

Definition NoImage_generic : jsstring :=
  lit "O modelo de IA não retornou uma imagem. "
  ++ lit "Isso pode acontecer devido a filtros de segurança ou se a solicitação for muito complexa. Por favor, tente uma imagem diferente.".

Definition ConfigurationError : jsstring :=
  lit "A chave de API do Google Gemini não está configurada. Por favor, adicione VITE_API_KEY às suas variáveis de ambiente no Netlify e faça o redeploy.".

Definition FormatError_separator : jsstring := lit "Invalid data URL".

Definition FormatError_media_type : jsstring :=
  lit "Could not parse MIME type from data URL".

(** [t] occurs in [s] as a contiguous piece. *)
Definition embeds (s t : jsstring) : Prop :=
  exists before after, s = before ++ t ++ after.

(** From the start of [t] a [;] is reached on the same line: [g] is the text
    up to the nearest [;] and holds no line terminator. *)
Definition reaches_semicolon (t g : jsstring) : Prop :=
  exists post, t = g ++ semicolon :: post
    /\ ~ In semicolon g /\ forallb dot g = true.

(** The media-type marker of a header: the first [:] from which a [;] is
    reached on the same line, and the text [m] between the two. *)
Definition media_type_marker (h m : jsstring) : Prop :=
  exists pre t, h = pre ++ colon :: t
    /\ reaches_semicolon t m
    /\ forall p1 p2 g, pre = p1 ++ colon :: p2 ->
         ~ reaches_semicolon (p2 ++ colon :: t) g.

(** The marker is located when it delimits a non-empty media type. *)
Definition marker_located (h : jsstring) : Prop :=
  exists m, m <> [] /\ media_type_marker h m.

(** The text of [s] before its first [sep], all of [s] when it has none. *)
Fixpoint before_separator (sep : N) (s : jsstring) : jsstring :=
  match s with
  | [] => []
  | c :: s' => if c =? sep then [] else c :: before_separator sep s'
  end.

(** The fixed text of the pose prompt around the caller's instruction. *)
Definition pose_before : jsstring :=
  lit "Você é uma IA especialista em fotografia de moda. Pegue esta imagem e gere-a novamente de uma perspectiva diferente. A pessoa, a roupa e o estilo do fundo devem permanecer idênticos. A nova perspectiva deve ser: "
  ++ [dquote].

Definition pose_after : jsstring :=
  [dquote] ++ lit ". Retorne APENAS a imagem final.".

(** The texts of the text parts of the requests sent during a run, in
    order. *)
Definition prompt_texts {File : Type} (es : list (event File))
  : list jsstring :=
  flat_map
    (fun e =>
       match e with
       | FileRead _ => []
       | NetworkCall _ params =>
           flat_map
             (fun part =>
                match GenAI.text part with
                | Some t => [t]
                | None => []
                end)
             (or_nil (GenAI.parts (GenAI.contents params)))
       end) es.

(** The test of the search for an image part. *)
Definition has_inline (part : GenAI.Part) : bool :=
  match GenAI.inlineData part with
  | Some _ => true
  | None => false
  end.

(** The completion-status of the first candidate
    ([response.candidates?.[0]?.finishReason]). *)
Definition first_status (r : GenAI.GenerateContentResponse)
  : option jsstring :=
  match GenAI.candidates r with
  | Some (c :: _) => GenAI.finishReason c
  | _ => None
  end.

(** Both variants of the decode procedure complete in the same way. *)
Definition decodes_to (r : GenAI.GenerateContentResponse)
    (result : completion jsstring) : Prop :=
  Hardcoded.handleApiResponse r = result
  /\ EnvKey.handleApiResponse r = result.

(** Both variants of the parser complete in the same way. *)
Definition parses_to (s : jsstring) (result : completion DataUrlParts) : Prop :=
  Hardcoded.dataUrlToParts s = result /\ EnvKey.dataUrlToParts s = result.

End Spec.
Import Spec.

(** ** Sample values *)

Module Samples.

Definition imagePart (m payload : jsstring) : GenAI.Part :=
  {| GenAI.inlineData :=
       Some {| GenAI.mimeType := Some m; GenAI.data := Some payload |};
     GenAI.text := None |}.

Definition candidate (ps : list GenAI.Part) (status : jsstring)
  : GenAI.Candidate :=
  {| GenAI.content := Some {| GenAI.parts := Some ps |};
     GenAI.finishReason := Some status |}.

Definition emptyCandidate : GenAI.Candidate :=
  {| GenAI.content := None; GenAI.finishReason := None |}.

Definition response (cs : list GenAI.Candidate) (t : option jsstring)
  : GenAI.GenerateContentResponse :=
  {| GenAI.promptFeedback := None;
     GenAI.candidates := Some cs;
     GenAI.response_text := t |}.

Definition blockedResponse (reason : jsstring) (message : option jsstring)
    (cs : list GenAI.Candidate) : GenAI.GenerateContentResponse :=
  {| GenAI.promptFeedback :=
       Some {| GenAI.blockReason := Some reason;
               GenAI.blockReasonMessage := message |};
     GenAI.candidates := Some cs;
     GenAI.response_text := None |}.

(** No image, normal stop, and a text that is a single line feed. *)
Definition blankTextResponse : GenAI.GenerateContentResponse :=
  response [candidate [GenAI.textPart [10]] (lit "STOP")] (Some [10]).

(** An image part whose media type and payload are empty strings. *)
Definition emptyImageResponse : GenAI.GenerateContentResponse :=
  response [candidate [imagePart [] []] (lit "STOP")] None.

(** A world in which every file read and every service call fails. *)
Definition offline : World unit unit :=
  {| readAsDataURL := fun _ => inr tt;
     generateContent := fun _ _ => inr tt |}.

(** A world in which the service answers every call with one PNG image. *)
Definition online : World unit unit :=
  {| readAsDataURL := fun _ => inl (lit "data:image/png;base64,AAAA");
     generateContent := fun _ _ =>
       inl (response [candidate [imagePart (lit "image/png") (lit "BBBB")]
                        (lit "STOP")] None) |}.

End Samples.

(** ** Vocabulary for the runs of the operations *)

Module Trace.

(** The requests sent to the service during a run, in order. *)
Definition network_calls {File : Type} (es : list (event File))
  : list (GenAI.GoogleGenAI * GenAI.GenerateContentParameters) :=
  flat_map
    (fun e =>
       match e with
       | FileRead _ => []
       | NetworkCall client params => [(client, params)]
       end) es.

(** How the promise of an operation settles when its last step is a
    synchronous call. *)
Definition settle {Failure A : Type} (c : completion A) : outcome Failure A :=
  match c with
  | Return a => Fulfilled a
  | Throw m => Rejected m
  end.

(** The embedded-image part built from a parsed Image Reference. *)
Definition imagePartOf (p : DataUrlParts) : GenAI.Part :=
  {| GenAI.inlineData :=
       Some {| GenAI.mimeType := Some (mimeType p);
               GenAI.data := Some (data p) |};
     GenAI.text := None |}.

(** The request every operation builds around its parts. *)
Definition requestOf (parts : list GenAI.Part)
  : GenAI.GenerateContentParameters :=
  {| GenAI.model := lit "gemini-2.5-flash-image-preview";
     GenAI.contents := {| GenAI.parts := Some parts |};
     GenAI.config :=
       {| GenAI.responseModalities := [GenAI.IMAGE; GenAI.TEXT] |} |}.

(** One service call followed by the decoding of its answer. *)
Definition send {File Failure : Type} (w : World File Failure)
    (client : GenAI.GoogleGenAI) (parts : list GenAI.Part)
  : list (event File) * outcome Failure jsstring :=
  ([NetworkCall client (requestOf parts)],
   match generateContent w client (requestOf parts) with
   | inl r => settle (Hardcoded.handleApiResponse r)
   | inr e => Propagated e
   end).

(** The client of the environment variant when a key is configured. *)
Definition clientOf (env : option EnvKey.ImportMetaEnv) : GenAI.GoogleGenAI :=
  {| GenAI.apiKey := EnvKey.API_KEY env |}.

(** A unit of white space, as [trim] sees it, at the start or the end. *)
Definition padded (s : jsstring) : Prop :=
  (exists c rest, s = c :: rest /\ isWhiteSpace c = true)
  \/ (exists rest c, s = rest ++ [c] /\ isWhiteSpace c = true).

(** A run sends at most one request, and a request it sends names the
    fixed model and asks for both response modalities. *)
Definition one_fixed_call {File Failure : Type}
    (result : list (event File) * outcome Failure jsstring) : Prop :=
  (List.length (network_calls (fst result)) <= 1)%nat
  /\ Forall
       (fun call =>
          GenAI.model (snd call) = lit "gemini-2.5-flash-image-preview"
          /\ GenAI.responseModalities (GenAI.config (snd call))
             = [GenAI.IMAGE; GenAI.TEXT])
       (network_calls (fst result)).

(** A run that sent a request settles as the decoding of the answer to that
    request, or with the failure of the call itself. *)
Definition settles_by_decoding {File Failure : Type} (w : World File Failure)
    (result : list (event File) * outcome Failure jsstring) : Prop :=
  forall client params,
    In (client, params) (network_calls (fst result)) ->
    snd result
    = match generateContent w client params with
      | inl r => settle (Hardcoded.handleApiResponse r)
      | inr e => Propagated e
      end.

End Trace.
Import Trace.

(** Two messages differ when their third or their forty-first units do. *)
Ltac differ H :=
  first [ apply (f_equal (fun l => nth 2 l 0)) in H; vm_compute in H;
          discriminate H
        | apply (f_equal (fun l => nth 40 l 0)) in H; vm_compute in H;
          discriminate H ].

Ltac differ_thrown H :=
  first [ apply (f_equal (fun c : completion jsstring =>
                            match c with
                            | Throw m => nth 2 m 0
                            | Return _ => 0
                            end)) in H;
          vm_compute in H; discriminate H
        | apply (f_equal (fun c : completion jsstring =>
                            match c with
                            | Throw m => nth 40 m 0
                            | Return _ => 0
                            end)) in H;
          vm_compute in H; discriminate H ].

(** ** Properties of the runtime pieces *)

Section Runtime.

Lemma string_eqb_eq (a b : jsstring) : string_eqb a b = true <-> a = b.
Proof.
  revert b; induction a as [|x a IH]; intros [|y b]; simpl; split;
    try congruence; try discriminate.
  - rewrite andb_true_iff, N.eqb_eq, IH. now intros [-> ->].
  - intros H; injection H as -> ->. now rewrite N.eqb_refl, (proj2 (IH b)).
Qed.

Lemma split_not_nil (sep : N) (s : jsstring) : split sep s <> [].
Proof.
  destruct s as [|c s]; simpl; [discriminate|].
  destruct (c =? sep); [discriminate|].
  destruct (split sep s); discriminate.
Qed.

Lemma split_no_separator (sep : N) (s : jsstring) :
  ~ In sep s -> split sep s = [s].
Proof.
  induction s as [|c s IH]; simpl; intros H; [reflexivity|].
  destruct (N.eqb_spec c sep) as [->|_]; [tauto|].
  rewrite IH by tauto. reflexivity.
Qed.

Lemma split_at_separator (sep : N) (h rest : jsstring) :
  ~ In sep h -> split sep (h ++ sep :: rest) = h :: split sep rest.
Proof.
  induction h as [|c h IH]; simpl; intros H.
  - now rewrite N.eqb_refl.
  - destruct (N.eqb_spec c sep) as [->|_]; [tauto|].
    rewrite IH by tauto. reflexivity.
Qed.

Lemma first_separator (sep : N) (s : jsstring) :
  In sep s -> exists h rest, s = h ++ sep :: rest /\ ~ In sep h.
Proof.
  induction s as [|c s IH]; simpl; [tauto|]. intros H.
  destruct (N.eq_dec c sep) as [->|Hne].
  - exists [], s. simpl. tauto.
  - destruct IH as (h & rest & -> & Hh); [tauto|].
    exists (c :: h), rest. simpl. split; [reflexivity|]. tauto.
Qed.

Lemma split_length_lt_2 (sep : N) (s : jsstring) :
  Nat.ltb (List.length (split sep s)) 2 = true <-> ~ In sep s.
Proof.
  split.
  - intros H Hin. destruct (first_separator sep s Hin) as (h & rest & -> & Hh).
    rewrite split_at_separator in H by assumption.
    pose proof (split_not_nil sep rest).
    destruct (split sep rest); [congruence|]. discriminate.
  - intros H. now rewrite split_no_separator.
Qed.

Lemma lazy_group_semicolon_spec (t g : jsstring) :
  lazy_group_semicolon t = Some g <-> reaches_semicolon t g.
Proof.
  revert g; induction t as [|c t IH]; intros g; simpl.
  - split; [discriminate|]. intros (post & H & _). now destruct g.
  - destruct (N.eqb_spec c semicolon) as [->|Hc].
    + split.
      * intros [= <-]. exists t. simpl. tauto.
      * intros (post & H & Hg & _). destruct g as [|x g]; [reflexivity|].
        injection H as <- _. simpl in Hg. tauto.
    + destruct (dot c) eqn:Hd.
      * split.
        -- destruct (lazy_group_semicolon t) as [g'|] eqn:E; [|discriminate].
           intros [= <-]. destruct (proj1 (IH g') eq_refl) as (post & -> & Hg & Hf).
           exists post. simpl. rewrite Hd, Hf.
           split; [reflexivity|]. split; [|reflexivity]. intros [H|H]; auto.
        -- intros (post & H & Hg & Hf). destruct g as [|x g].
           ++ injection H as H _. congruence.
           ++ injection H as <- ->. simpl in Hg, Hf.
              apply andb_true_iff in Hf as [_ Hf].
              rewrite (proj2 (IH g)); [reflexivity|].
              exists post. tauto.
      * split; [discriminate|]. intros (post & H & Hg & Hf).
        destruct g as [|x g].
        -- injection H as H _. congruence.
        -- injection H as <- _. simpl in Hf. rewrite Hd in Hf. discriminate.
Qed.

Lemma reaches_semicolon_fun (t g g' : jsstring) :
  reaches_semicolon t g -> reaches_semicolon t g' -> g = g'.
Proof.
  intros H H'. apply lazy_group_semicolon_spec in H, H'. congruence.
Qed.

Lemma match_mime_spec (h m : jsstring) :
  match_mime h = Some m <-> media_type_marker h m.
Proof.
  revert m; induction h as [|c h IH]; intros m; simpl.
  - split; [discriminate|]. intros (pre & t & H & _). now destruct pre.
  - assert (Hskip : lazy_group_semicolon h = None \/ c <> colon ->
              (match_mime h = Some m <-> media_type_marker (c :: h) m)).
    { intros Hno. rewrite IH. split.
      - intros (pre & t & -> & Hr & Hleft). exists (c :: pre), t.
        split; [reflexivity|]. split; [assumption|].
        intros [|x p1] p2 g Hp; simpl in Hp; injection Hp as Hx Hp.
        + subst c p2. destruct Hno as [Hno|Hno]; [|congruence].
          intros Hg. apply lazy_group_semicolon_spec in Hg. congruence.
        + subst pre. exact (Hleft p1 p2 g eq_refl).
      - intros (pre & t & H & Hr & Hleft). destruct pre as [|x pre].
        + simpl in H. injection H as -> ->.
          apply lazy_group_semicolon_spec in Hr.
          destruct Hno as [Hno|Hno]; congruence.
        + simpl in H. injection H as -> ->. exists pre, t.
          split; [reflexivity|]. split; [assumption|].
          intros p1 p2 g ->. apply (Hleft (x :: p1) p2 g). reflexivity. }
    destruct (N.eqb_spec c colon) as [->|Hc]; [|apply Hskip; now right].
    destruct (lazy_group_semicolon h) as [g|] eqn:E; [|apply Hskip; now left].
    apply lazy_group_semicolon_spec in E. split.
    + intros [= <-]. exists [], h. split; [reflexivity|]. split; [assumption|].
      intros p1 p2 g' Hp. now destruct p1.
    + intros (pre & t & H & Hr & Hleft). destruct pre as [|x pre].
      * simpl in H. injection H as ->. f_equal.
        eapply reaches_semicolon_fun; eassumption.
      * simpl in H. injection H as Hx Hh. subst x h.
        exfalso. apply (Hleft [] pre g eq_refl). assumption.
Qed.

End Runtime.

(** ** The decode procedure *)

Section Decode.

Lemma handleApiResponse_variants :
  EnvKey.handleApiResponse = Hardcoded.handleApiResponse.
Proof. reflexivity. Qed.

Lemma dataUrlToParts_variants :
  EnvKey.dataUrlToParts = Hardcoded.dataUrlToParts.
Proof. reflexivity. Qed.

Lemma decodes_to_intro (r : GenAI.GenerateContentResponse)
    (result : completion jsstring) :
  Hardcoded.handleApiResponse r = result -> decodes_to r result.
Proof. intros H. split; [|rewrite handleApiResponse_variants]; exact H. Qed.

Lemma find_first_image (ps_before ps_after : list GenAI.Part) (p : GenAI.Part) :
  Forall no_image_part ps_before -> has_inline p = true ->
  find has_inline (ps_before ++ p :: ps_after) = Some p.
Proof.
  induction 1 as [|q qs Hq _ IH]; simpl; intros Hp.
  - now rewrite Hp.
  - unfold has_inline at 1. rewrite Hq. auto.
Qed.

Lemma find_no_image (ps : list GenAI.Part) :
  find has_inline ps = None <-> Forall no_image_part ps.
Proof.
  induction ps as [|q qs IH]; simpl.
  - split; auto.
  - unfold has_inline at 1. destruct (GenAI.inlineData q) eqn:E.
    + split; [discriminate|]. intros H. inversion H as [|? ? Hq _]; subst.
      unfold no_image_part in Hq. congruence.
    + rewrite IH. split; [now constructor|]. now inversion 1.
Qed.

Lemma image_part_of (c : GenAI.Candidate) :
  chain (chain (GenAI.content c) GenAI.parts) (find has_inline)
  = find has_inline (parts_of c).
Proof.
  unfold parts_of. destruct (chain (GenAI.content c) GenAI.parts); reflexivity.
Qed.

Lemma scan_candidates_step (c : GenAI.Candidate) (rest : list GenAI.Candidate) :
  Hardcoded.scan_candidates (c :: rest)
  = match chain (find has_inline (parts_of c)) GenAI.inlineData with
    | Some inline => Some (image_reference inline)
    | None => Hardcoded.scan_candidates rest
    end.
Proof.
  cbn [Hardcoded.scan_candidates]. fold has_inline. rewrite image_part_of.
  reflexivity.
Qed.

Lemma find_has_inline (ps : list GenAI.Part) (p : GenAI.Part) :
  find has_inline ps = Some p ->
  exists inline, GenAI.inlineData p = Some inline /\ In p ps.
Proof.
  intros H. destruct (find_some _ _ H) as [Hin Hp].
  unfold has_inline in Hp. destruct (GenAI.inlineData p) as [inline|];
    [|discriminate]. now exists inline.
Qed.

Lemma scan_candidates_none (cs : list GenAI.Candidate) :
  Hardcoded.scan_candidates cs = None <-> Forall no_image cs.
Proof.
  induction cs as [|c cs IH]; [split; auto|].
  rewrite scan_candidates_step.
  destruct (find has_inline (parts_of c)) as [p|] eqn:E; simpl.
  - destruct (find_has_inline _ _ E) as (inline & Hi & Hin). rewrite Hi.
    split; [discriminate|]. intros H. inversion H as [|? ? Hc _]; subst.
    apply find_no_image in Hc. congruence.
  - apply find_no_image in E. rewrite IH. split; [now constructor|].
    now inversion 1.
Qed.

Lemma scan_candidates_some (cs : list GenAI.Candidate) (u : jsstring) :
  Hardcoded.scan_candidates cs = Some u ->
  exists c p inline, In c cs /\ In p (parts_of c)
    /\ GenAI.inlineData p = Some inline /\ u = image_reference inline.
Proof.
  induction cs as [|c cs IH]; [discriminate|].
  rewrite scan_candidates_step.
  destruct (find has_inline (parts_of c)) as [p|] eqn:E; simpl.
  - destruct (find_has_inline _ _ E) as (inline & Hi & Hin). rewrite Hi.
    intros [= <-]. exists c, p, inline. simpl. auto.
  - intros H. destruct (IH H) as (c' & p & inline & Hc & Hrest).
    exists c', p, inline. simpl. auto.
Qed.

Lemma scan_candidates_first (before after : list GenAI.Candidate)
    (c : GenAI.Candidate) (ps_before ps_after : list GenAI.Part)
    (p : GenAI.Part) (inline : GenAI.Blob) :
  Forall no_image before ->
  chain (GenAI.content c) GenAI.parts = Some (ps_before ++ p :: ps_after) ->
  Forall no_image_part ps_before ->
  GenAI.inlineData p = Some inline ->
  Hardcoded.scan_candidates (before ++ c :: after)
  = Some (image_reference inline).
Proof.
  intros Hb Hc Hps Hp. induction Hb as [|b bs Hb _ IH]; simpl app.
  - rewrite scan_candidates_step. unfold parts_of. rewrite Hc. simpl or_nil.
    rewrite find_first_image; [simpl; now rewrite Hp|assumption|].
    unfold has_inline. now rewrite Hp.
  - rewrite scan_candidates_step.
    rewrite (proj2 (find_no_image _) Hb). exact IH.
Qed.

Lemma handleApiResponse_unblocked (r : GenAI.GenerateContentResponse) :
  no_block_reason r ->
  Hardcoded.handleApiResponse r
  = match Hardcoded.scan_candidates (or_nil (GenAI.candidates r)) with
    | Some dataUrl => Return dataUrl
    | None =>
        if truthy (first_status r)
           && negb (strict_eq (first_status r) (lit "STOP"))
        then Throw (Interrupted (interpolate (first_status r)))
        else if truthy (option_map trim (GenAI.response_text r))
        then Throw (NoImage_with_text
                      (interpolate (option_map trim (GenAI.response_text r))))
        else Throw NoImage_generic
    end.
Proof.
  unfold no_block_reason, Hardcoded.handleApiResponse. intros ->.
  unfold Interrupted, NoImage_with_text, NoImage_generic.
  destruct (Hardcoded.scan_candidates _); [reflexivity|].
  assert (Hs : chain (chain (GenAI.candidates r) (fun cs => nth_error cs 0))
                 GenAI.finishReason = first_status r).
  { unfold first_status. destruct (GenAI.candidates r) as [[|c cs]|]; reflexivity. }
  rewrite Hs.
  destruct (truthy (first_status r) && _); [reflexivity|].
  destruct (truthy (option_map trim (GenAI.response_text r))); reflexivity.
Qed.

End Decode.

(** ** Claims about the decode procedure *)

(** C1.  For a response with no top-level block reason, decode scans the
    candidates in order and the parts of each candidate in order, and returns
    the Image Reference built from the first part that carries embedded image
    data, whatever comes after that part; in particular, when the first part
    of the first candidate is an embedded image with media type [m] and
    payload [payload], decode returns exactly [data:m;base64,payload]. *)
Theorem decode_returns_first_image :
  (forall r before c after ps_before p ps_after inline,
      no_block_reason r ->
      GenAI.candidates r = Some (before ++ c :: after) ->
      Forall no_image before ->
      chain (GenAI.content c) GenAI.parts = Some (ps_before ++ p :: ps_after) ->
      Forall no_image_part ps_before ->
      GenAI.inlineData p = Some inline ->
      decodes_to r (Return (image_reference inline)))
  /\ (forall r c after p ps_after m payload,
      no_block_reason r ->
      GenAI.candidates r = Some (c :: after) ->
      chain (GenAI.content c) GenAI.parts = Some (p :: ps_after) ->
      GenAI.inlineData p
      = Some {| GenAI.mimeType := Some m; GenAI.data := Some payload |} ->
      decodes_to r (Return (lit "data:" ++ m ++ lit ";base64," ++ payload))).
Proof.
  assert (General : forall r before c after ps_before p ps_after inline,
      no_block_reason r ->
      GenAI.candidates r = Some (before ++ c :: after) ->
      Forall no_image before ->
      chain (GenAI.content c) GenAI.parts = Some (ps_before ++ p :: ps_after) ->
      Forall no_image_part ps_before ->
      GenAI.inlineData p = Some inline ->
      decodes_to r (Return (image_reference inline))).
  { intros r before c after ps_before p ps_after inline Hr Hcs Hb Hc Hps Hp.
    apply decodes_to_intro. rewrite handleApiResponse_unblocked by assumption.
    rewrite Hcs. simpl or_nil.
    now rewrite (scan_candidates_first before after c ps_before ps_after p inline). }
  split; [exact General|].
  intros r c after p ps_after m payload Hr Hcs Hc Hp.
  exact (General r [] c after [] p ps_after _ Hr Hcs (Forall_nil _) Hc
           (Forall_nil _) Hp).
Qed.

Lemma decode_returns_first_image_witness :
  decodes_to
    (Samples.response
       [ Samples.emptyCandidate;
         Samples.candidate
           [ GenAI.textPart (lit "here it is");
             Samples.imagePart (lit "image/png") (lit "AAAA");
             Samples.imagePart (lit "image/jpeg") (lit "BBBB") ]
           (lit "STOP");
         Samples.candidate [Samples.imagePart (lit "image/gif") (lit "CCCC")]
           (lit "STOP") ]
       (Some (lit "here it is")))
    (Return (lit "data:image/png;base64,AAAA"))
  /\ decodes_to
    (Samples.response
       [ Samples.candidate
           [ Samples.imagePart (lit "image/webp") (lit "UklGRg==");
             GenAI.textPart (lit "done") ]
           (lit "STOP") ]
       (Some (lit "done")))
    (Return (lit "data:image/webp;base64,UklGRg==")).
Proof.
  split.
  - apply (proj1 decode_returns_first_image
             (Samples.response
                [ Samples.emptyCandidate;
                  Samples.candidate
                    [ GenAI.textPart (lit "here it is");
                      Samples.imagePart (lit "image/png") (lit "AAAA");
                      Samples.imagePart (lit "image/jpeg") (lit "BBBB") ]
                    (lit "STOP");
                  Samples.candidate
                    [Samples.imagePart (lit "image/gif") (lit "CCCC")]
                    (lit "STOP") ]
                (Some (lit "here it is")))
             [Samples.emptyCandidate]
             (Samples.candidate
                [ GenAI.textPart (lit "here it is");
                  Samples.imagePart (lit "image/png") (lit "AAAA");
                  Samples.imagePart (lit "image/jpeg") (lit "BBBB") ]
                (lit "STOP"))
             [Samples.candidate
                [Samples.imagePart (lit "image/gif") (lit "CCCC")] (lit "STOP")]
             [GenAI.textPart (lit "here it is")]
             (Samples.imagePart (lit "image/png") (lit "AAAA"))
             [Samples.imagePart (lit "image/jpeg") (lit "BBBB")]
             {| GenAI.mimeType := Some (lit "image/png");
                GenAI.data := Some (lit "AAAA") |}).
    + reflexivity.
    + reflexivity.
    + repeat constructor.
    + reflexivity.
    + repeat constructor.
    + reflexivity.
  - apply (proj2 decode_returns_first_image
             (Samples.response
                [ Samples.candidate
                    [ Samples.imagePart (lit "image/webp") (lit "UklGRg==");
                      GenAI.textPart (lit "done") ]
                    (lit "STOP") ]
                (Some (lit "done")))
             (Samples.candidate
                [ Samples.imagePart (lit "image/webp") (lit "UklGRg==");
                  GenAI.textPart (lit "done") ]
                (lit "STOP"))
             []
             (Samples.imagePart (lit "image/webp") (lit "UklGRg=="))
             [GenAI.textPart (lit "done")]
             (lit "image/webp") (lit "UklGRg==")); reflexivity.
Defined.

(** C2.  A response that carries a top-level block reason makes decode fail
    with the Blocked error, which carries that reason and the human-readable
    message when there is one; the candidates are not looked at, so the
    failure is the same whatever they hold, a valid image part included. *)
Theorem decode_blocked (feedback : GenAI.PromptFeedback) (reason : jsstring)
    (cs : option (list GenAI.Candidate)) (t : option jsstring) :
  GenAI.blockReason feedback = Some reason ->
  reason <> [] ->
  decodes_to
    {| GenAI.promptFeedback := Some feedback;
       GenAI.candidates := cs;
       GenAI.response_text := t |}
    (Throw (Blocked reason
              match GenAI.blockReasonMessage feedback with
              | Some message => message
              | None => []
              end)).
Proof.
  intros Hreason Hne. apply decodes_to_intro.
  unfold Hardcoded.handleApiResponse, Blocked. simpl chain. rewrite Hreason.
  destruct reason as [|x reason]; [congruence|]. simpl truthy. cbv iota.
  simpl interpolate. do 3 f_equal.
  destruct (GenAI.blockReasonMessage feedback) as [[|y message]|]; reflexivity.
Qed.

Lemma decode_blocked_witness :
  decodes_to
    (Samples.blockedResponse (lit "SAFETY") (Some (lit "unsafe prompt"))
       [Samples.candidate [Samples.imagePart (lit "image/png") (lit "AAAA")]
          (lit "STOP")])
    (Throw (lit "A solicitação foi bloqueada. Motivo: SAFETY. unsafe prompt")).
Proof.
  apply (decode_blocked
           {| GenAI.blockReason := Some (lit "SAFETY");
              GenAI.blockReasonMessage := Some (lit "unsafe prompt") |}
           (lit "SAFETY")
           (Some [Samples.candidate
                    [Samples.imagePart (lit "image/png") (lit "AAAA")]
                    (lit "STOP")])
           None).
  - reflexivity.
  - discriminate.
Defined.

Lemma not_in_units (x : N) (s : jsstring) :
  existsb (N.eqb x) s = false -> ~ In x s.
Proof.
  intros H Hin. assert (existsb (N.eqb x) s = true); [|congruence].
  apply existsb_exists. exists x. split; [assumption|apply N.eqb_refl].
Qed.

Lemma embeds_unit (s : jsstring) (x : N) : embeds s [x] -> In x s.
Proof.
  intros (before & after & ->). apply in_or_app. right. now left.
Qed.

Lemma no_image_cases (r : GenAI.GenerateContentResponse) :
  no_block_reason r ->
  Forall no_image (or_nil (GenAI.candidates r)) ->
  Hardcoded.handleApiResponse r
  = if truthy (first_status r)
       && negb (strict_eq (first_status r) (lit "STOP"))
    then Throw (Interrupted (interpolate (first_status r)))
    else if truthy (option_map trim (GenAI.response_text r))
    then Throw (NoImage_with_text
                  (interpolate (option_map trim (GenAI.response_text r))))
    else Throw NoImage_generic.
Proof.
  intros Hr Hcs. rewrite handleApiResponse_unblocked by assumption.
  now rewrite (proj2 (scan_candidates_none _) Hcs).
Qed.

Lemma truthy_some (s : jsstring) : s <> [] -> truthy (Some s) = true.
Proof. destruct s; [congruence|reflexivity]. Qed.

Lemma string_eqb_neq (a b : jsstring) : a <> b -> string_eqb a b = false.
Proof.
  intros H. destruct (string_eqb a b) eqn:E; [|reflexivity].
  apply string_eqb_eq in E. congruence.
Qed.

(** C3, what the code does not do.  A response with no block reason and no
    image part, whose first candidate stopped normally and whose text is a
    single line feed, carries text, and yet decode fails with the generic
    NoImage error, which holds no line feed at all. *)
Lemma decode_blank_text_counterexample :
  no_block_reason Samples.blankTextResponse
  /\ Forall no_image (or_nil (GenAI.candidates Samples.blankTextResponse))
  /\ first_status Samples.blankTextResponse = Some (lit "STOP")
  /\ GenAI.response_text Samples.blankTextResponse = Some [10]
  /\ decodes_to Samples.blankTextResponse (Throw NoImage_generic)
  /\ NoImage_generic <> NoImage_with_text [10]
  /\ ~ embeds NoImage_generic [10].
Proof.
  split; [reflexivity|]. split; [repeat constructor|].
  split; [reflexivity|]. split; [reflexivity|].
  split; [apply decodes_to_intro; vm_compute; reflexivity|].
  split; [vm_compute; discriminate|].
  intros H. apply embeds_unit in H. revert H. apply not_in_units.
  vm_compute. reflexivity.
Qed.

(** C3, as the code has it.  For a response with no block reason and no
    image-bearing part: when the completion-status of the first candidate is
    present, non-empty and not ["STOP"], decode fails with the Interrupted
    error carrying that status; when it is ["STOP"], empty or absent, decode
    fails with the NoImage error embedding the text of the response trimmed of
    surrounding white space if that trimmed text is non-empty, and with the
    generic NoImage error if the text is absent or blank; the generic NoImage
    error is never an Interrupted error. *)
Theorem decode_without_image (r : GenAI.GenerateContentResponse) :
  no_block_reason r ->
  Forall no_image (or_nil (GenAI.candidates r)) ->
  (forall status,
      first_status r = Some status -> status <> [] -> status <> lit "STOP" ->
      decodes_to r (Throw (Interrupted status)))
  /\ (first_status r = None \/ first_status r = Some []
      \/ first_status r = Some (lit "STOP") ->
      (forall t,
          GenAI.response_text r = Some t -> trim t <> [] ->
          decodes_to r (Throw (NoImage_with_text (trim t))))
      /\ (GenAI.response_text r = None
          \/ (exists t, GenAI.response_text r = Some t /\ trim t = []) ->
          decodes_to r (Throw NoImage_generic)))
  /\ (forall status, NoImage_generic <> Interrupted status).
Proof.
  intros Hr Hcs. pose proof (no_image_cases r Hr Hcs) as H.
  split; [|split].
  - intros status Hs Hne Hstop. apply decodes_to_intro. rewrite H, Hs.
    cbn [interpolate strict_eq].
    rewrite truthy_some, string_eqb_neq by assumption. reflexivity.
  - intros Hs.
    assert (Hnormal : truthy (first_status r)
              && negb (strict_eq (first_status r) (lit "STOP")) = false).
    { destruct Hs as [-> | [-> | ->]]; reflexivity. }
    rewrite Hnormal in H. split.
    + intros t Ht Hne. apply decodes_to_intro. rewrite H, Ht. simpl option_map.
      now rewrite truthy_some.
    + intros Ht. apply decodes_to_intro. rewrite H.
      destruct Ht as [-> | (t & -> & Ht)]; [reflexivity|].
      simpl option_map. now rewrite Ht.
  - intros status Heq. apply (f_equal (hd 0)) in Heq. vm_compute in Heq.
    discriminate.
Qed.

Lemma decode_without_image_witness :
  decodes_to (Samples.response [Samples.candidate [] (lit "SAFETY")] None)
    (Throw (Interrupted (lit "SAFETY")))
  /\ decodes_to
       (Samples.response
          [Samples.candidate [GenAI.textPart (lit " no image ")] (lit "STOP")]
          (Some (lit " no image ")))
       (Throw (NoImage_with_text (lit "no image")))
  /\ decodes_to (Samples.response [Samples.candidate [] (lit "STOP")] None)
       (Throw NoImage_generic).
Proof.
  split; [|split].
  - apply (proj1 (decode_without_image
                    (Samples.response [Samples.candidate [] (lit "SAFETY")] None)
                    eq_refl ltac:(repeat constructor)) (lit "SAFETY")).
    + reflexivity.
    + discriminate.
    + discriminate.
  - apply (proj1 (proj1 (proj2 (decode_without_image
                    (Samples.response
                       [Samples.candidate [GenAI.textPart (lit " no image ")]
                          (lit "STOP")]
                       (Some (lit " no image ")))
                    eq_refl ltac:(repeat constructor)))
                  (or_intror (or_intror eq_refl))) (lit " no image ")).
    + reflexivity.
    + discriminate.
  - apply (proj2 (proj1 (proj2 (decode_without_image
                    (Samples.response [Samples.candidate [] (lit "STOP")] None)
                    eq_refl ltac:(repeat constructor)))
                  (or_intror (or_intror eq_refl)))).
    left. reflexivity.
Defined.

(** C4, what the code does not do.  The first image-bearing part of this
    response has an empty media type and an empty payload, and decode returns
    an Image Reference built from it, both components empty. *)
Lemma decode_empty_image_counterexample :
  no_block_reason Samples.emptyImageResponse
  /\ GenAI.candidates Samples.emptyImageResponse
     = Some [Samples.candidate [Samples.imagePart [] []] (lit "STOP")]
  /\ decodes_to Samples.emptyImageResponse (Return (lit "data:;base64,")).
Proof.
  split; [reflexivity|]. split; [reflexivity|].
  apply decodes_to_intro. vm_compute. reflexivity.
Qed.

(** C4, as the code has it.  Decode does not validate an image-bearing part:
    for a response with no block reason and at least one part carrying
    embedded image data, decode never fails, and returns
    [data:<mediaType>;base64,<payload>] built from the embedded data of one of
    the parts as they are; when that part is the first part of the first
    candidate, an empty media type or payload gives an empty component and an
    absent one gives the text [undefined]. *)
Theorem decode_image_part_unvalidated :
  (forall r,
      no_block_reason r ->
      ~ Forall no_image (or_nil (GenAI.candidates r)) ->
      exists c p inline,
        In c (or_nil (GenAI.candidates r)) /\ In p (parts_of c)
        /\ GenAI.inlineData p = Some inline
        /\ decodes_to r
             (Return (lit "data:" ++ interpolate (GenAI.mimeType inline)
                      ++ lit ";base64," ++ interpolate (GenAI.data inline))))
  /\ (forall r c after p ps_after mediaType payload,
      no_block_reason r ->
      GenAI.candidates r = Some (c :: after) ->
      chain (GenAI.content c) GenAI.parts = Some (p :: ps_after) ->
      GenAI.inlineData p
      = Some {| GenAI.mimeType := mediaType; GenAI.data := payload |} ->
      decodes_to r
        (Return (lit "data:"
                 ++ match mediaType with
                    | Some m => m
                    | None => lit "undefined"
                    end
                 ++ lit ";base64,"
                 ++ match payload with
                    | Some d => d
                    | None => lit "undefined"
                    end))).
Proof.
  split.
  - intros r Hr Himg.
    destruct (Hardcoded.scan_candidates (or_nil (GenAI.candidates r)))
      as [u|] eqn:E.
    + destruct (scan_candidates_some _ _ E) as (c & p & inline & Hc & Hp & Hi & ->).
      exists c, p, inline. repeat (split; [assumption|]).
      apply decodes_to_intro. rewrite handleApiResponse_unblocked by assumption.
      now rewrite E.
    + apply scan_candidates_none in E. contradiction.
  - intros r c after p ps_after mediaType payload Hr Hcs Hc Hp.
    apply decodes_to_intro. rewrite handleApiResponse_unblocked by assumption.
    rewrite Hcs. simpl or_nil.
    pose proof (scan_candidates_first [] after c [] ps_after p _
                  (Forall_nil _) Hc (Forall_nil _) Hp) as Hscan.
    simpl app in Hscan. rewrite Hscan. reflexivity.
Qed.

Lemma decode_image_part_unvalidated_witness :
  decodes_to
    (Samples.response
       [ {| GenAI.content :=
              Some {| GenAI.parts :=
                        Some [ {| GenAI.inlineData :=
                                    Some {| GenAI.mimeType := None;
                                            GenAI.data := Some [] |};
                                  GenAI.text := None |} ] |};
            GenAI.finishReason := None |} ]
       None)
    (Return (lit "data:undefined;base64,")).
Proof.
  apply (proj2 decode_image_part_unvalidated
           (Samples.response
              [ {| GenAI.content :=
                     Some {| GenAI.parts :=
                               Some [ {| GenAI.inlineData :=
                                           Some {| GenAI.mimeType := None;
                                                   GenAI.data := Some [] |};
                                         GenAI.text := None |} ] |};
                   GenAI.finishReason := None |} ]
              None)
           {| GenAI.content :=
                Some {| GenAI.parts :=
                          Some [ {| GenAI.inlineData :=
                                      Some {| GenAI.mimeType := None;
                                              GenAI.data := Some [] |};
                                    GenAI.text := None |} ] |};
              GenAI.finishReason := None |}
           []
           {| GenAI.inlineData :=
                Some {| GenAI.mimeType := None; GenAI.data := Some [] |};
              GenAI.text := None |}
           [] None (Some [])); reflexivity.
Defined.

(** ** The parser of Image References *)

Lemma parses_to_intro (s : jsstring) (result : completion DataUrlParts) :
  Hardcoded.dataUrlToParts s = result -> parses_to s result.
Proof. intros H. split; [|rewrite dataUrlToParts_variants]; exact H. Qed.

Lemma first_piece (sep : N) (s : jsstring) :
  nth 0 (split sep s) [] = before_separator sep s.
Proof.
  induction s as [|c s IH]; simpl; [reflexivity|].
  destruct (c =? sep); [reflexivity|].
  rewrite <- IH. pose proof (split_not_nil sep s).
  destruct (split sep s); [congruence|reflexivity].
Qed.

Lemma before_separator_app (sep : N) (p rest : jsstring) :
  ~ In sep p -> before_separator sep (p ++ sep :: rest) = p.
Proof.
  induction p as [|c p IH]; simpl; intros H.
  - now rewrite N.eqb_refl.
  - destruct (N.eqb_spec c sep) as [->|_]; [tauto|]. rewrite IH; tauto.
Qed.

Lemma before_separator_whole (sep : N) (p : jsstring) :
  ~ In sep p -> before_separator sep p = p.
Proof.
  induction p as [|c p IH]; simpl; intros H; [reflexivity|].
  destruct (N.eqb_spec c sep) as [->|_]; [tauto|]. rewrite IH; tauto.
Qed.

Lemma marker_located_iff (h : jsstring) :
  marker_located h <-> truthy (match_mime h) = true.
Proof.
  split.
  - intros (m & Hm & H). apply match_mime_spec in H. rewrite H.
    now apply truthy_some.
  - destruct (match_mime h) as [[|x m]|] eqn:E; try discriminate. intros _.
    exists (x :: m). split; [discriminate|]. now apply match_mime_spec.
Qed.

Lemma dataUrlToParts_no_separator (s : jsstring) :
  ~ In comma s -> Hardcoded.dataUrlToParts s = Throw FormatError_separator.
Proof.
  intros H. unfold Hardcoded.dataUrlToParts.
  now rewrite (proj2 (split_length_lt_2 comma s) H).
Qed.

Lemma dataUrlToParts_header (h rest : jsstring) :
  ~ In comma h ->
  Hardcoded.dataUrlToParts (h ++ comma :: rest)
  = if truthy (match_mime h)
    then Return {| mimeType := interpolate (match_mime h);
                   data := before_separator comma rest |}
    else Throw FormatError_media_type.
Proof.
  intros H. unfold Hardcoded.dataUrlToParts.
  rewrite split_at_separator by assumption.
  pose proof (split_not_nil comma rest) as Hne.
  rewrite <- (first_piece comma rest).
  destruct (split comma rest) as [|piece pieces]; [congruence|].
  unfold FormatError_media_type.
  cbn [List.length Nat.ltb Nat.leb nth].
  destruct (match_mime h) as [[|x g]|]; reflexivity.
Qed.

(** C5.  Parsing an Image Reference fails exactly when the string has no [,]
    separator or when the media-type marker is not located in the header, the
    segment before the first [,]: the first failure is the FormatError of the
    separator, the second the FormatError of the media type; and
    ["data:image/png;base64,AAAA"] parses to media type ["image/png"] and
    payload ["AAAA"]. *)
Theorem parse_fails_exactly :
  (forall s,
      (exists message, parses_to s (Throw message))
      <-> (~ In comma s
           \/ exists h rest,
                s = h ++ comma :: rest /\ ~ In comma h /\ ~ marker_located h))
  /\ (forall s, ~ In comma s -> parses_to s (Throw FormatError_separator))
  /\ (forall h rest,
        ~ In comma h -> ~ marker_located h ->
        parses_to (h ++ comma :: rest) (Throw FormatError_media_type))
  /\ parses_to (lit "data:image/png;base64,AAAA")
       (Return {| mimeType := lit "image/png"; data := lit "AAAA" |}).
Proof.
  assert (Hsep : forall s, ~ In comma s ->
            parses_to s (Throw FormatError_separator)).
  { intros s H. apply parses_to_intro. now apply dataUrlToParts_no_separator. }
  assert (Hmedia : forall h rest, ~ In comma h -> ~ marker_located h ->
            parses_to (h ++ comma :: rest) (Throw FormatError_media_type)).
  { intros h rest Hh Hm. apply parses_to_intro.
    rewrite dataUrlToParts_header by assumption.
    rewrite marker_located_iff in Hm.
    destruct (truthy (match_mime h)); [congruence|reflexivity]. }
  split; [|split; [exact Hsep|split; [exact Hmedia|]]].
  - intros s. split.
    + intros (message & Hthrow & _).
      destruct (in_dec N.eq_dec comma s) as [Hin|Hout]; [right|now left].
      destruct (first_separator comma s Hin) as (h & rest & -> & Hh).
      exists h, rest. split; [reflexivity|]. split; [assumption|].
      rewrite dataUrlToParts_header in Hthrow by assumption.
      rewrite marker_located_iff.
      destruct (truthy (match_mime h)); [discriminate|discriminate].
    + intros [H | (h & rest & -> & Hh & Hm)].
      * exists FormatError_separator. now apply Hsep.
      * exists FormatError_media_type. now apply Hmedia.
  - apply parses_to_intro. vm_compute. reflexivity.
Qed.

Lemma parse_fails_exactly_witness :
  parses_to (lit "data:image/png;base64") (Throw FormatError_separator)
  /\ parses_to (lit "image/png" ++ comma :: lit "AAAA")
       (Throw FormatError_media_type).
Proof.
  split.
  - apply (proj1 (proj2 parse_fails_exactly) (lit "data:image/png;base64")).
    apply not_in_units. vm_compute. reflexivity.
  - apply (proj1 (proj2 (proj2 parse_fails_exactly))
             (lit "image/png") (lit "AAAA")).
    + apply not_in_units. vm_compute. reflexivity.
    + intros H. apply marker_located_iff in H. vm_compute in H. discriminate.
Defined.

Lemma dataUrlToParts_marker (h m rest : jsstring) :
  ~ In comma h -> media_type_marker h m ->
  Hardcoded.dataUrlToParts (h ++ comma :: rest)
  = match m with
    | [] => Throw FormatError_media_type
    | _ :: _ => Return {| mimeType := m; data := before_separator comma rest |}
    end.
Proof.
  intros Hh Hm. rewrite dataUrlToParts_header by assumption.
  apply match_mime_spec in Hm. rewrite Hm. now destruct m.
Qed.

(** C9, what the code does not do.  The header of this string, the segment
    before its only comma, contains a [:] followed by the character [x] and
    then a [;], and yet parsing fails with the FormatError of the media type:
    the expression matches at the first [:], where the media type is empty. *)
Lemma parse_lax_counterexample :
  lit "data:;name:x;base64,AAAA"
  = (lit "data:;name" ++ colon :: lit "x" ++ semicolon :: lit "base64")
    ++ comma :: lit "AAAA"
  /\ ~ In comma (lit "data:;name" ++ colon :: lit "x" ++ semicolon :: lit "base64")
  /\ lit "x" <> []
  /\ parses_to (lit "data:;name:x;base64,AAAA") (Throw FormatError_media_type).
Proof.
  split; [reflexivity|]. split; [apply not_in_units; vm_compute; reflexivity|].
  split; [discriminate|]. apply parses_to_intro. vm_compute. reflexivity.
Qed.

(** C9, as the code has it.  Parsing is laxer than the documented grammar:
    for a string with at least one comma whose header, the segment before
    the first comma, has a media-type marker (the first [:] from which a [;]
    is reached with no line terminator in between, and the text between that
    [:] and the nearest [;] after it), parsing succeeds with that text as the
    media type when it is non-empty, and fails with the FormatError of the
    media type when it is empty; neither the [data:] prefix nor the [;base64]
    marker is required, so ["x:a;junk,PAYLOAD"] parses. *)
Theorem parse_is_lax :
  (forall h m rest,
      ~ In comma h -> media_type_marker h m ->
      (m <> [] ->
       parses_to (h ++ comma :: rest)
         (Return {| mimeType := m; data := before_separator comma rest |}))
      /\ (m = [] ->
          parses_to (h ++ comma :: rest) (Throw FormatError_media_type)))
  /\ parses_to (lit "x:a;junk,PAYLOAD")
       (Return {| mimeType := lit "a"; data := lit "PAYLOAD" |}).
Proof.
  split.
  - intros h m rest Hh Hm.
    pose proof (dataUrlToParts_marker h m rest Hh Hm) as H. split.
    + intros Hne. apply parses_to_intro. rewrite H.
      destruct m; [congruence|reflexivity].
    + intros ->. apply parses_to_intro. exact H.
  - apply parses_to_intro. vm_compute. reflexivity.
Qed.

Lemma parse_is_lax_witness :
  parses_to (lit "see: text/plain; and more" ++ comma :: lit "one,two")
    (Return {| mimeType := lit " text/plain"; data := lit "one" |}).
Proof.
  apply (proj1 (proj1 parse_is_lax
                  (lit "see: text/plain; and more") (lit " text/plain")
                  (lit "one,two")
                  ltac:(apply not_in_units; vm_compute; reflexivity)
                  ltac:(apply match_mime_spec; vm_compute; reflexivity))).
  discriminate.
Defined.

(** C10.  For a string with more than one comma whose header has a located
    media-type marker, parsing returns as payload only the text strictly
    between the first and the second comma; everything from the second comma
    on is dropped without a failure. *)
Theorem parse_payload_between_commas (h m payload more : jsstring) :
  ~ In comma h -> ~ In comma payload ->
  media_type_marker h m -> m <> [] ->
  parses_to (h ++ comma :: payload ++ comma :: more)
    (Return {| mimeType := m; data := payload |})
  /\ (forall result,
        parses_to (h ++ comma :: payload ++ comma :: more) result
        <-> parses_to (h ++ comma :: payload) result).
Proof.
  intros Hh Hp Hm Hne.
  assert (H1 : Hardcoded.dataUrlToParts (h ++ comma :: payload ++ comma :: more)
               = Return {| mimeType := m; data := payload |}).
  { rewrite (dataUrlToParts_marker h m) by assumption.
    rewrite before_separator_app by assumption.
    destruct m; [congruence|reflexivity]. }
  assert (H2 : Hardcoded.dataUrlToParts (h ++ comma :: payload)
               = Return {| mimeType := m; data := payload |}).
  { rewrite (dataUrlToParts_marker h m) by assumption.
    rewrite before_separator_whole by assumption.
    destruct m; [congruence|reflexivity]. }
  split; [now apply parses_to_intro|].
  intros result. unfold parses_to.
  rewrite dataUrlToParts_variants, H1, H2. reflexivity.
Qed.

Lemma parse_payload_between_commas_witness :
  parses_to (lit "data:image/png;base64,AA,BB")
    (Return {| mimeType := lit "image/png"; data := lit "AA" |}).
Proof.
  apply (proj1 (parse_payload_between_commas
                  (lit "data:image/png;base64") (lit "image/png")
                  (lit "AA") (lit "BB")
                  ltac:(apply not_in_units; vm_compute; reflexivity)
                  ltac:(apply not_in_units; vm_compute; reflexivity)
                  ltac:(apply match_mime_spec; vm_compute; reflexivity)
                  ltac:(discriminate))).
Defined.

(** ** The two variants *)

(** C8.  The variant with the credential in the file and the variant with
    the credential from the environment compute the same functions on their
    shared logic: on every response [handleApiResponse] returns the same
    Image Reference or throws the same error, and on every string
    [dataUrlToParts] returns the same media type and payload or throws the
    same error. *)
Theorem variants_agree :
  (forall response,
      Hardcoded.handleApiResponse response = EnvKey.handleApiResponse response)
  /\ (forall dataUrl,
        Hardcoded.dataUrlToParts dataUrl = EnvKey.dataUrlToParts dataUrl).
Proof. split; intros; reflexivity. Qed.

(** ** The three operations *)

Lemma getAiInstance_unconfigured (env : option EnvKey.ImportMetaEnv) :
  EnvKey.isApiKeyConfigured env = false ->
  EnvKey.getAiInstance env = Throw ConfigurationError.
Proof.
  unfold EnvKey.isApiKeyConfigured, EnvKey.getAiInstance, EnvKey.ai.
  intros H. apply negb_false_iff in H. rewrite H.
  unfold ConfigurationError. reflexivity.
Qed.

Lemma getAiInstance_configured (env : option EnvKey.ImportMetaEnv) :
  EnvKey.isApiKeyConfigured env = true ->
  exists key, EnvKey.API_KEY env = Some key /\ key <> []
    /\ EnvKey.getAiInstance env = Return {| GenAI.apiKey := Some key |}.
Proof.
  unfold EnvKey.isApiKeyConfigured, EnvKey.getAiInstance, EnvKey.ai.
  intros H. apply negb_true_iff in H. rewrite H.
  destruct (EnvKey.API_KEY env) as [[|x key]|]; try discriminate.
  exists (x :: key). repeat split. discriminate.
Qed.

(** C6.  When no key is configured (the environment is absent, or its
    [VITE_API_KEY] is absent or empty), each of the three operations is
    rejected with the configuration error and performs no event at all: no
    file is read and no call reaches the service. *)
Theorem operations_fail_fast_without_key (File Failure : Type)
    (env : option EnvKey.ImportMetaEnv) (w : World File Failure)
    (userImage garmentImage : File)
    (modelImageUrl tryOnImageUrl poseInstruction : jsstring) :
  EnvKey.isApiKeyConfigured env = false ->
  run w (EnvKey.generateModelImage File env userImage)
  = ([], Rejected ConfigurationError)
  /\ run w (EnvKey.generateVirtualTryOnImage File env modelImageUrl garmentImage)
     = ([], Rejected ConfigurationError)
  /\ run w (EnvKey.generatePoseVariation File env tryOnImageUrl poseInstruction)
     = ([], Rejected ConfigurationError).
Proof.
  intros H. apply getAiInstance_unconfigured in H.
  unfold EnvKey.generateModelImage, EnvKey.generateVirtualTryOnImage,
    EnvKey.generatePoseVariation.
  rewrite H. repeat split.
Qed.

Lemma operations_fail_fast_without_key_witness :
  run Samples.online
    (EnvKey.generateModelImage unit
       (Some {| EnvKey.VITE_API_KEY := Some [] |}) tt)
  = ([], Rejected ConfigurationError)
  /\ run Samples.online
       (EnvKey.generateVirtualTryOnImage unit
          (Some {| EnvKey.VITE_API_KEY := Some [] |})
          (lit "data:image/png;base64,AAAA") tt)
     = ([], Rejected ConfigurationError)
  /\ run Samples.online
       (EnvKey.generatePoseVariation unit
          (Some {| EnvKey.VITE_API_KEY := Some [] |})
          (lit "data:image/png;base64,AAAA") (lit "top-down view"))
     = ([], Rejected ConfigurationError).
Proof.
  apply (operations_fail_fast_without_key unit unit
           (Some {| EnvKey.VITE_API_KEY := Some [] |}) Samples.online tt tt
           (lit "data:image/png;base64,AAAA") (lit "data:image/png;base64,AAAA")
           (lit "top-down view")).
  reflexivity.
Defined.

Lemma pose_prompt_texts (File : Type) (client : GenAI.GoogleGenAI)
    (image : GenAI.Part) (poseInstruction : jsstring) :
  GenAI.text image = None ->
  prompt_texts
    [@NetworkCall File client
       (Hardcoded.request
          [image; GenAI.textPart (Hardcoded.posePrompt poseInstruction)])]
  = [pose_before ++ poseInstruction ++ pose_after].
Proof.
  intros H. unfold prompt_texts, Hardcoded.request. cbn [flat_map GenAI.contents
    GenAI.parts or_nil GenAI.textPart GenAI.text app]. rewrite H.
  unfold Hardcoded.posePrompt, pose_before, pose_after.
  cbn [app]. rewrite <- !app_assoc. reflexivity.
Qed.

Lemma pose_run_hardcoded (File Failure : Type) (w : World File Failure)
    (credential tryOnImageUrl poseInstruction : jsstring) :
  prompt_texts
    (fst (run w (Hardcoded.generatePoseVariation File credential
                   tryOnImageUrl poseInstruction)))
  = match Hardcoded.dataUrlToParts tryOnImageUrl with
    | Return _ => [pose_before ++ poseInstruction ++ pose_after]
    | Throw _ => []
    end.
Proof.
  unfold Hardcoded.generatePoseVariation, Hardcoded.dataUrlToPart.
  destruct (Hardcoded.dataUrlToParts tryOnImageUrl) as [p|m]; [|reflexivity].
  cbn [call bind run].
  destruct (generateContent w _ _) as [r|f];
    [destruct (Hardcoded.handleApiResponse r)|];
    cbn [call run fst]; now apply pose_prompt_texts.
Qed.

Lemma dataUrlToPart_variants : EnvKey.dataUrlToPart = Hardcoded.dataUrlToPart.
Proof. reflexivity. Qed.

Lemma posePrompt_variants : EnvKey.posePrompt = Hardcoded.posePrompt.
Proof. unfold EnvKey.posePrompt, Hardcoded.posePrompt. reflexivity. Qed.

Lemma request_variants : EnvKey.request = Hardcoded.request.
Proof. reflexivity. Qed.

Lemma generatePoseVariation_variants (File : Type)
    (env : option EnvKey.ImportMetaEnv) (key : jsstring)
    (tryOnImageUrl poseInstruction : jsstring) :
  EnvKey.getAiInstance env = Return {| GenAI.apiKey := Some key |} ->
  EnvKey.generatePoseVariation File env tryOnImageUrl poseInstruction
  = Hardcoded.generatePoseVariation File key tryOnImageUrl poseInstruction.
Proof.
  intros Hget.
  unfold EnvKey.generatePoseVariation, Hardcoded.generatePoseVariation.
  rewrite Hget, dataUrlToPart_variants, posePrompt_variants, request_variants,
    handleApiResponse_variants.
  reflexivity.
Qed.

Lemma pose_run_envkey (File Failure : Type) (w : World File Failure)
    (env : option EnvKey.ImportMetaEnv)
    (tryOnImageUrl poseInstruction : jsstring) :
  prompt_texts
    (fst (run w (EnvKey.generatePoseVariation File env
                   tryOnImageUrl poseInstruction)))
  = if EnvKey.isApiKeyConfigured env then
      match EnvKey.dataUrlToParts tryOnImageUrl with
      | Return _ => [pose_before ++ poseInstruction ++ pose_after]
      | Throw _ => []
      end
    else [].
Proof.
  destruct (EnvKey.isApiKeyConfigured env) eqn:E.
  - destruct (getAiInstance_configured env E) as (key & _ & _ & Hget).
    rewrite (generatePoseVariation_variants File env key _ _ Hget).
    rewrite dataUrlToParts_variants. apply pose_run_hardcoded.
  - unfold EnvKey.generatePoseVariation.
    rewrite (getAiInstance_unconfigured env E). reflexivity.
Qed.

(** C7.  The text of every request that the pose-variation operation sends
    is the fixed prompt with the caller's instruction placed in it as it is,
    unescaped and unchanged; and a request is sent, with that text, whenever
    the Image Reference parses (and, in the variant with the credential from
    the environment, a key is configured). *)
Theorem pose_instruction_verbatim (File Failure : Type)
    (w : World File Failure) (tryOnImageUrl poseInstruction : jsstring) :
  (forall credential,
      Forall (fun t => t = pose_before ++ poseInstruction ++ pose_after)
        (prompt_texts
           (fst (run w (Hardcoded.generatePoseVariation File credential
                          tryOnImageUrl poseInstruction)))))
  /\ (forall env,
        Forall (fun t => t = pose_before ++ poseInstruction ++ pose_after)
          (prompt_texts
             (fst (run w (EnvKey.generatePoseVariation File env
                            tryOnImageUrl poseInstruction)))))
  /\ (forall parts,
        Hardcoded.dataUrlToParts tryOnImageUrl = Return parts ->
        (forall credential,
            prompt_texts
              (fst (run w (Hardcoded.generatePoseVariation File credential
                             tryOnImageUrl poseInstruction)))
            = [pose_before ++ poseInstruction ++ pose_after])
        /\ (forall env,
              EnvKey.isApiKeyConfigured env = true ->
              prompt_texts
                (fst (run w (EnvKey.generatePoseVariation File env
                               tryOnImageUrl poseInstruction)))
              = [pose_before ++ poseInstruction ++ pose_after])).
Proof.
  split; [|split].
  - intros credential. rewrite pose_run_hardcoded.
    destruct (Hardcoded.dataUrlToParts tryOnImageUrl); repeat constructor.
  - intros env. rewrite pose_run_envkey.
    destruct (EnvKey.isApiKeyConfigured env); [|constructor].
    destruct (EnvKey.dataUrlToParts tryOnImageUrl); repeat constructor.
  - intros parts Hparse. split.
    + intros credential. rewrite pose_run_hardcoded. now rewrite Hparse.
    + intros env Hkey. rewrite pose_run_envkey, Hkey.
      rewrite dataUrlToParts_variants. now rewrite Hparse.
Qed.

Lemma pose_instruction_verbatim_witness :
  prompt_texts
    (fst (run Samples.online
            (Hardcoded.generatePoseVariation unit (lit "key")
               (lit "data:image/png;base64,AAAA") (lit "top-down view"))))
  = [pose_before ++ lit "top-down view" ++ pose_after]
  /\ prompt_texts
       (fst (run Samples.offline
               (EnvKey.generatePoseVariation unit
                  (Some {| EnvKey.VITE_API_KEY := Some (lit "key") |})
                  (lit "data:image/png;base64,AAAA") (lit "top-down view"))))
     = [pose_before ++ lit "top-down view" ++ pose_after].
Proof.
  split.
  - apply (proj1 (proj2 (proj2 (pose_instruction_verbatim unit unit
                   Samples.online (lit "data:image/png;base64,AAAA")
                   (lit "top-down view")))
                   {| mimeType := lit "image/png"; data := lit "AAAA" |}
                   ltac:(vm_compute; reflexivity))
             (lit "key")).
  - apply (proj2 (proj2 (proj2 (pose_instruction_verbatim unit unit
                   Samples.offline (lit "data:image/png;base64,AAAA")
                   (lit "top-down view")))
                   {| mimeType := lit "image/png"; data := lit "AAAA" |}
                   ltac:(vm_compute; reflexivity))
             (Some {| EnvKey.VITE_API_KEY := Some (lit "key") |})).
    reflexivity.
Defined.

(** ** Evaluations of the runtime pieces *)

Example lit_ascii : lit "a,b" = [97; 44; 98].
Proof. reflexivity. Qed.

Example lit_accents : lit "ção и" = [231; 227; 111; 32; 1080].
Proof. reflexivity. Qed.

Example split_three : split comma (lit "a,,bc") = [lit "a"; []; lit "bc"].
Proof. reflexivity. Qed.

Example split_empty : split comma [] = [[]].
Proof. reflexivity. Qed.

Example trim_both_ends : trim ([32; 10] ++ lit "hi there" ++ [9; 13]) = lit "hi there".
Proof. reflexivity. Qed.

Example match_mime_png :
  match_mime (lit "data:image/png;base64") = Some (lit "image/png").
Proof. reflexivity. Qed.

Example match_mime_line_terminator :
  match_mime (lit "x:a" ++ [10] ++ lit "b;") = None.
Proof. reflexivity. Qed.

Example match_mime_skips_broken_line :
  match_mime (lit "x:" ++ [10] ++ lit ":a;") = Some (lit "a").
Proof. reflexivity. Qed.

Example match_mime_leftmost_lazy :
  match_mime (lit "a:b:c;d;") = Some (lit "b:c").
Proof. reflexivity. Qed.

(** ** The operations as runs *)

Lemma fileToPart_variants (File : Type) :
  EnvKey.fileToPart File = Hardcoded.fileToPart File.
Proof. unfold EnvKey.fileToPart, Hardcoded.fileToPart. reflexivity. Qed.

Lemma modelPrompt_variants : EnvKey.modelPrompt = Hardcoded.modelPrompt.
Proof. unfold EnvKey.modelPrompt, Hardcoded.modelPrompt. reflexivity. Qed.

Lemma tryOnPrompt_variants : EnvKey.tryOnPrompt = Hardcoded.tryOnPrompt.
Proof. unfold EnvKey.tryOnPrompt, Hardcoded.tryOnPrompt. reflexivity. Qed.

Lemma generateModelImage_variants (File : Type)
    (env : option EnvKey.ImportMetaEnv) (key : jsstring) (userImage : File) :
  EnvKey.getAiInstance env = Return {| GenAI.apiKey := Some key |} ->
  EnvKey.generateModelImage File env userImage
  = Hardcoded.generateModelImage File key userImage.
Proof.
  intros Hget.
  unfold EnvKey.generateModelImage, Hardcoded.generateModelImage.
  rewrite Hget, fileToPart_variants, modelPrompt_variants, request_variants,
    handleApiResponse_variants.
  reflexivity.
Qed.

Lemma generateVirtualTryOnImage_variants (File : Type)
    (env : option EnvKey.ImportMetaEnv) (key modelImageUrl : jsstring)
    (garmentImage : File) :
  EnvKey.getAiInstance env = Return {| GenAI.apiKey := Some key |} ->
  EnvKey.generateVirtualTryOnImage File env modelImageUrl garmentImage
  = Hardcoded.generateVirtualTryOnImage File key modelImageUrl garmentImage.
Proof.
  intros Hget.
  unfold EnvKey.generateVirtualTryOnImage, Hardcoded.generateVirtualTryOnImage.
  rewrite Hget, dataUrlToPart_variants, fileToPart_variants,
    tryOnPrompt_variants, request_variants, handleApiResponse_variants.
  reflexivity.
Qed.

Lemma dataUrlToPart_imagePartOf (dataUrl : jsstring) :
  Hardcoded.dataUrlToPart dataUrl
  = match Hardcoded.dataUrlToParts dataUrl with
    | Return p => Return (imagePartOf p)
    | Throw m => Throw m
    end.
Proof.
  unfold Hardcoded.dataUrlToPart.
  destruct (Hardcoded.dataUrlToParts dataUrl); reflexivity.
Qed.

Lemma request_requestOf (parts : list GenAI.Part) :
  Hardcoded.request parts = requestOf parts.
Proof. reflexivity. Qed.

Lemma run_send (File Failure : Type) (w : World File Failure)
    (client : GenAI.GoogleGenAI) (parts : list GenAI.Part) :
  run w (GenerateContent client (Hardcoded.request parts)
           (fun response => call (Hardcoded.handleApiResponse response)))
  = send w client parts.
Proof.
  unfold send. rewrite request_requestOf. cbn [run].
  destruct (generateContent w client (requestOf parts)) as [r|e];
    [|reflexivity].
  destruct (Hardcoded.handleApiResponse r); reflexivity.
Qed.

(** Reading a file and parsing what the reader gives, followed by [k]. *)
Lemma run_fileToPart (File Failure : Type) (w : World File Failure)
    (file : File) (k : GenAI.Part -> async File jsstring) :
  run w (bind (Hardcoded.fileToPart File file) k)
  = match readAsDataURL w file with
    | inr e => ([FileRead file], Propagated e)
    | inl dataUrl =>
        match Hardcoded.dataUrlToParts dataUrl with
        | Throw m => ([FileRead file], Rejected m)
        | Return p =>
            let (es, o) := run w (k (imagePartOf p)) in (FileRead file :: es, o)
        end
    end.
Proof.
  unfold Hardcoded.fileToPart. cbn [bind run].
  destruct (readAsDataURL w file) as [dataUrl|e]; [|reflexivity].
  destruct (Hardcoded.dataUrlToParts dataUrl) as [p|m]; reflexivity.
Qed.

Lemma run_generateModelImage (File Failure : Type) (w : World File Failure)
    (credential : jsstring) (userImage : File) :
  run w (Hardcoded.generateModelImage File credential userImage)
  = match readAsDataURL w userImage with
    | inr e => ([FileRead userImage], Propagated e)
    | inl dataUrl =>
        match Hardcoded.dataUrlToParts dataUrl with
        | Throw m => ([FileRead userImage], Rejected m)
        | Return p =>
            let (es, o) :=
              send w (Hardcoded.ai credential)
                [imagePartOf p; GenAI.textPart Hardcoded.modelPrompt] in
            (FileRead userImage :: es, o)
        end
    end.
Proof.
  unfold Hardcoded.generateModelImage. rewrite run_fileToPart.
  destruct (readAsDataURL w userImage) as [dataUrl|e]; [|reflexivity].
  destruct (Hardcoded.dataUrlToParts dataUrl) as [p|m]; [|reflexivity].
  cbv beta zeta. cbn [bind].
  rewrite (run_send File Failure w (Hardcoded.ai credential)
             [imagePartOf p; GenAI.textPart Hardcoded.modelPrompt]).
  reflexivity.
Qed.

Lemma run_generateVirtualTryOnImage (File Failure : Type)
    (w : World File Failure) (credential modelImageUrl : jsstring)
    (garmentImage : File) :
  run w (Hardcoded.generateVirtualTryOnImage File credential modelImageUrl
           garmentImage)
  = match Hardcoded.dataUrlToParts modelImageUrl with
    | Throw m => ([], Rejected m)
    | Return pm =>
        match readAsDataURL w garmentImage with
        | inr e => ([FileRead garmentImage], Propagated e)
        | inl dataUrl =>
            match Hardcoded.dataUrlToParts dataUrl with
            | Throw m => ([FileRead garmentImage], Rejected m)
            | Return pg =>
                let (es, o) :=
                  send w (Hardcoded.ai credential)
                    [imagePartOf pm; imagePartOf pg;
                     GenAI.textPart Hardcoded.tryOnPrompt] in
                (FileRead garmentImage :: es, o)
            end
        end
    end.
Proof.
  unfold Hardcoded.generateVirtualTryOnImage.
  rewrite dataUrlToPart_imagePartOf.
  destruct (Hardcoded.dataUrlToParts modelImageUrl) as [pm|m]; [|reflexivity].
  cbn [call]. cbn [bind]. rewrite run_fileToPart.
  destruct (readAsDataURL w garmentImage) as [dataUrl|e]; [|reflexivity].
  destruct (Hardcoded.dataUrlToParts dataUrl) as [pg|m]; [|reflexivity].
  cbv beta zeta. cbn [bind].
  rewrite (run_send File Failure w (Hardcoded.ai credential)
             [imagePartOf pm; imagePartOf pg;
              GenAI.textPart Hardcoded.tryOnPrompt]).
  reflexivity.
Qed.

Lemma run_generatePoseVariation (File Failure : Type) (w : World File Failure)
    (credential tryOnImageUrl poseInstruction : jsstring) :
  run w (Hardcoded.generatePoseVariation File credential tryOnImageUrl
           poseInstruction)
  = match Hardcoded.dataUrlToParts tryOnImageUrl with
    | Throw m => ([], Rejected m)
    | Return p =>
        send w (Hardcoded.ai credential)
          [imagePartOf p;
           GenAI.textPart (Hardcoded.posePrompt poseInstruction)]
    end.
Proof.
  unfold Hardcoded.generatePoseVariation.
  rewrite dataUrlToPart_imagePartOf.
  destruct (Hardcoded.dataUrlToParts tryOnImageUrl) as [p|m]; [|reflexivity].
  cbn [call]. cbn [bind]. cbv beta zeta. cbn [bind].
  rewrite (run_send File Failure w (Hardcoded.ai credential)
             [imagePartOf p;
              GenAI.textPart (Hardcoded.posePrompt poseInstruction)]).
  reflexivity.
Qed.

Lemma configured_env (File : Type) (env : option EnvKey.ImportMetaEnv) :
  EnvKey.isApiKeyConfigured env = true ->
  exists key,
    EnvKey.API_KEY env = Some key /\ key <> []
    /\ clientOf env = Hardcoded.ai key
    /\ (forall userImage,
          EnvKey.generateModelImage File env userImage
          = Hardcoded.generateModelImage File key userImage)
    /\ (forall modelImageUrl garmentImage,
          EnvKey.generateVirtualTryOnImage File env modelImageUrl garmentImage
          = Hardcoded.generateVirtualTryOnImage File key modelImageUrl
              garmentImage)
    /\ (forall tryOnImageUrl poseInstruction,
          EnvKey.generatePoseVariation File env tryOnImageUrl poseInstruction
          = Hardcoded.generatePoseVariation File key tryOnImageUrl
              poseInstruction).
Proof.
  intros H. destruct (getAiInstance_configured env H) as (key & Hk & Hne & Hget).
  exists key. split; [assumption|]. split; [assumption|].
  split; [unfold clientOf, Hardcoded.ai; now rewrite Hk|].
  split; [|split]; intros.
  - now apply generateModelImage_variants.
  - now apply generateVirtualTryOnImage_variants.
  - now apply generatePoseVariation_variants.
Qed.

(** X1.  With a key configured, when the reader gives a data URL that parses,
    the model-image operation reads the file and then sends exactly one
    request: the fixed model, both response modalities, and as parts one
    embedded image with the media type and payload parsed from the file,
    followed by the fixed instruction text. *)
Theorem model_image_request (File Failure : Type) (w : World File Failure)
    (env : option EnvKey.ImportMetaEnv) (userImage : File)
    (dataUrl : jsstring) (p : DataUrlParts) :
  EnvKey.isApiKeyConfigured env = true ->
  readAsDataURL w userImage = inl dataUrl ->
  EnvKey.dataUrlToParts dataUrl = Return p ->
  fst (run w (EnvKey.generateModelImage File env userImage))
  = [ FileRead userImage;
      NetworkCall (clientOf env)
        {| GenAI.model := lit "gemini-2.5-flash-image-preview";
           GenAI.contents :=
             {| GenAI.parts :=
                  Some [ {| GenAI.inlineData :=
                              Some {| GenAI.mimeType := Some (mimeType p);
                                      GenAI.data := Some (data p) |};
                            GenAI.text := None |};
                         GenAI.textPart EnvKey.modelPrompt ] |};
           GenAI.config :=
             {| GenAI.responseModalities := [GenAI.IMAGE; GenAI.TEXT] |} |} ].
Proof.
  intros Hkey Hread Hparse.
  destruct (configured_env File env Hkey) as (key & _ & _ & Hc & Hm & _).
  rewrite Hm, run_generateModelImage, Hread.
  rewrite dataUrlToParts_variants in Hparse. rewrite Hparse.
  rewrite Hc, modelPrompt_variants. reflexivity.
Qed.

Lemma model_image_request_witness :
  fst (run Samples.online
         (EnvKey.generateModelImage unit
            (Some {| EnvKey.VITE_API_KEY := Some (lit "key") |}) tt))
  = [ FileRead tt;
      NetworkCall {| GenAI.apiKey := Some (lit "key") |}
        (requestOf [ Samples.imagePart (lit "image/png") (lit "AAAA");
                     GenAI.textPart EnvKey.modelPrompt ]) ].
Proof.
  apply (model_image_request unit unit Samples.online
           (Some {| EnvKey.VITE_API_KEY := Some (lit "key") |}) tt
           (lit "data:image/png;base64,AAAA")
           {| mimeType := lit "image/png"; data := lit "AAAA" |}).
  - reflexivity.
  - reflexivity.
  - vm_compute. reflexivity.
Defined.

(** X2.  With a key configured, when the model Image Reference parses and the
    reader gives a data URL that parses for the garment, the try-on operation
    reads the garment file and then sends exactly one request whose parts are,
    in this order, the model image, the garment image and the fixed
    instruction text. *)
Theorem try_on_request (File Failure : Type) (w : World File Failure)
    (env : option EnvKey.ImportMetaEnv) (modelImageUrl : jsstring)
    (garmentImage : File) (dataUrl : jsstring) (pm pg : DataUrlParts) :
  EnvKey.isApiKeyConfigured env = true ->
  EnvKey.dataUrlToParts modelImageUrl = Return pm ->
  readAsDataURL w garmentImage = inl dataUrl ->
  EnvKey.dataUrlToParts dataUrl = Return pg ->
  fst (run w (EnvKey.generateVirtualTryOnImage File env modelImageUrl
                garmentImage))
  = [ FileRead garmentImage;
      NetworkCall (clientOf env)
        (requestOf [ imagePartOf pm; imagePartOf pg;
                     GenAI.textPart EnvKey.tryOnPrompt ]) ].
Proof.
  intros Hkey Hpm Hread Hpg.
  destruct (configured_env File env Hkey) as (key & _ & _ & Hc & _ & Ht & _).
  rewrite Ht, run_generateVirtualTryOnImage.
  rewrite dataUrlToParts_variants in Hpm, Hpg. rewrite Hpm, Hread, Hpg.
  rewrite Hc, tryOnPrompt_variants. reflexivity.
Qed.

Lemma try_on_request_witness :
  fst (run Samples.online
         (EnvKey.generateVirtualTryOnImage unit
            (Some {| EnvKey.VITE_API_KEY := Some (lit "key") |})
            (lit "data:image/jpeg;base64,MMMM") tt))
  = [ FileRead tt;
      NetworkCall {| GenAI.apiKey := Some (lit "key") |}
        (requestOf [ Samples.imagePart (lit "image/jpeg") (lit "MMMM");
                     Samples.imagePart (lit "image/png") (lit "AAAA");
                     GenAI.textPart EnvKey.tryOnPrompt ]) ].
Proof.
  apply (try_on_request unit unit Samples.online
           (Some {| EnvKey.VITE_API_KEY := Some (lit "key") |})
           (lit "data:image/jpeg;base64,MMMM") tt
           (lit "data:image/png;base64,AAAA")
           {| mimeType := lit "image/jpeg"; data := lit "MMMM" |}
           {| mimeType := lit "image/png"; data := lit "AAAA" |}).
  - reflexivity.
  - vm_compute. reflexivity.
  - reflexivity.
  - vm_compute. reflexivity.
Defined.

Lemma run_unconfigured (File Failure : Type) (w : World File Failure)
    (env : option EnvKey.ImportMetaEnv) :
  EnvKey.isApiKeyConfigured env = false ->
  (forall userImage,
      run w (EnvKey.generateModelImage File env userImage)
      = ([], Rejected ConfigurationError))
  /\ (forall modelImageUrl garmentImage,
        run w (EnvKey.generateVirtualTryOnImage File env modelImageUrl
                 garmentImage)
        = ([], Rejected ConfigurationError))
  /\ (forall tryOnImageUrl poseInstruction,
        run w (EnvKey.generatePoseVariation File env tryOnImageUrl
                 poseInstruction)
        = ([], Rejected ConfigurationError)).
Proof.
  intros H. apply getAiInstance_unconfigured in H.
  unfold EnvKey.generateModelImage, EnvKey.generateVirtualTryOnImage,
    EnvKey.generatePoseVariation.
  rewrite H. repeat split.
Qed.

(** X3.  A model or composite Image Reference that does not parse makes the
    try-on and the pose operation reject with the parse error before any
    event: the garment file is not read and nothing is sent; in the
    environment variant this holds once a key is configured. *)
Theorem malformed_reference_sends_nothing (File Failure : Type)
    (w : World File Failure) (imageUrl message : jsstring) :
  Hardcoded.dataUrlToParts imageUrl = Throw message ->
  (forall credential garmentImage,
      run w (Hardcoded.generateVirtualTryOnImage File credential imageUrl
               garmentImage)
      = ([], Rejected message))
  /\ (forall credential poseInstruction,
        run w (Hardcoded.generatePoseVariation File credential imageUrl
                 poseInstruction)
        = ([], Rejected message))
  /\ (forall env garmentImage,
        EnvKey.isApiKeyConfigured env = true ->
        run w (EnvKey.generateVirtualTryOnImage File env imageUrl garmentImage)
        = ([], Rejected message))
  /\ (forall env poseInstruction,
        EnvKey.isApiKeyConfigured env = true ->
        run w (EnvKey.generatePoseVariation File env imageUrl poseInstruction)
        = ([], Rejected message)).
Proof.
  intros Hparse.
  assert (Ht : forall credential garmentImage,
      run w (Hardcoded.generateVirtualTryOnImage File credential imageUrl
               garmentImage)
      = ([], Rejected message)).
  { intros. now rewrite run_generateVirtualTryOnImage, Hparse. }
  assert (Hp : forall credential poseInstruction,
      run w (Hardcoded.generatePoseVariation File credential imageUrl
               poseInstruction)
      = ([], Rejected message)).
  { intros. now rewrite run_generatePoseVariation, Hparse. }
  repeat split; try assumption.
  - intros env garmentImage Hkey.
    destruct (configured_env File env Hkey) as (key & _ & _ & _ & _ & E & _).
    rewrite E. apply Ht.
  - intros env poseInstruction Hkey.
    destruct (configured_env File env Hkey) as (key & _ & _ & _ & _ & _ & E).
    rewrite E. apply Hp.
Qed.

Lemma malformed_reference_sends_nothing_witness :
  run Samples.online
    (EnvKey.generatePoseVariation unit
       (Some {| EnvKey.VITE_API_KEY := Some (lit "key") |})
       (lit "image/png;base64;AAAA") (lit "top-down view"))
  = ([], Rejected FormatError_separator).
Proof.
  apply (proj2 (proj2 (proj2 (malformed_reference_sends_nothing unit unit
           Samples.online (lit "image/png;base64;AAAA") FormatError_separator
           ltac:(vm_compute; reflexivity))))
           (Some {| EnvKey.VITE_API_KEY := Some (lit "key") |})
           (lit "top-down view")).
  reflexivity.
Defined.

(** X4.  When the reader gives for a file a data URL that does not parse, the
    model-image operation, and the try-on operation whose model reference
    parses, reject with the parse error right after the file read: nothing is
    sent to the service. *)
Theorem malformed_file_sends_nothing (File Failure : Type)
    (w : World File Failure) (file : File) (dataUrl message : jsstring) :
  readAsDataURL w file = inl dataUrl ->
  Hardcoded.dataUrlToParts dataUrl = Throw message ->
  (forall credential,
      run w (Hardcoded.generateModelImage File credential file)
      = ([FileRead file], Rejected message))
  /\ (forall credential modelImageUrl pm,
        Hardcoded.dataUrlToParts modelImageUrl = Return pm ->
        run w (Hardcoded.generateVirtualTryOnImage File credential
                 modelImageUrl file)
        = ([FileRead file], Rejected message))
  /\ (forall env,
        EnvKey.isApiKeyConfigured env = true ->
        run w (EnvKey.generateModelImage File env file)
        = ([FileRead file], Rejected message))
  /\ (forall env modelImageUrl pm,
        EnvKey.isApiKeyConfigured env = true ->
        Hardcoded.dataUrlToParts modelImageUrl = Return pm ->
        run w (EnvKey.generateVirtualTryOnImage File env modelImageUrl file)
        = ([FileRead file], Rejected message)).
Proof.
  intros Hread Hparse.
  assert (Hm : forall credential,
      run w (Hardcoded.generateModelImage File credential file)
      = ([FileRead file], Rejected message)).
  { intros. now rewrite run_generateModelImage, Hread, Hparse. }
  assert (Ht : forall credential modelImageUrl pm,
      Hardcoded.dataUrlToParts modelImageUrl = Return pm ->
      run w (Hardcoded.generateVirtualTryOnImage File credential
               modelImageUrl file)
      = ([FileRead file], Rejected message)).
  { intros credential modelImageUrl pm Hpm.
    now rewrite run_generateVirtualTryOnImage, Hpm, Hread, Hparse. }
  repeat split; try assumption.
  - intros env Hkey.
    destruct (configured_env File env Hkey) as (key & _ & _ & _ & E & _).
    rewrite E. apply Hm.
  - intros env modelImageUrl pm Hkey Hpm.
    destruct (configured_env File env Hkey) as (key & _ & _ & _ & _ & E & _).
    rewrite E. now apply (Ht key modelImageUrl pm).
Qed.

Lemma malformed_file_sends_nothing_witness :
  run {| readAsDataURL := fun _ : unit => inl (lit "not a data url");
         generateContent := generateContent Samples.offline |}
    (EnvKey.generateModelImage unit
       (Some {| EnvKey.VITE_API_KEY := Some (lit "key") |}) tt)
  = ([FileRead tt], Rejected FormatError_separator).
Proof.
  apply (proj1 (proj2 (proj2 (malformed_file_sends_nothing unit unit
           {| readAsDataURL := fun _ : unit => inl (lit "not a data url");
              generateContent := generateContent Samples.offline |}
           tt (lit "not a data url") FormatError_separator
           eq_refl ltac:(vm_compute; reflexivity))))
           (Some {| EnvKey.VITE_API_KEY := Some (lit "key") |})).
  reflexivity.
Defined.

(** X5.  A failure of the file read is passed on unchanged as the failure of
    the operation, and nothing is sent to the service. *)
Theorem file_failure_propagates (File Failure : Type)
    (w : World File Failure) (file : File) (failure : Failure) :
  readAsDataURL w file = inr failure ->
  (forall credential,
      run w (Hardcoded.generateModelImage File credential file)
      = ([FileRead file], Propagated failure))
  /\ (forall credential modelImageUrl pm,
        Hardcoded.dataUrlToParts modelImageUrl = Return pm ->
        run w (Hardcoded.generateVirtualTryOnImage File credential
                 modelImageUrl file)
        = ([FileRead file], Propagated failure))
  /\ (forall env,
        EnvKey.isApiKeyConfigured env = true ->
        run w (EnvKey.generateModelImage File env file)
        = ([FileRead file], Propagated failure))
  /\ (forall env modelImageUrl pm,
        EnvKey.isApiKeyConfigured env = true ->
        Hardcoded.dataUrlToParts modelImageUrl = Return pm ->
        run w (EnvKey.generateVirtualTryOnImage File env modelImageUrl file)
        = ([FileRead file], Propagated failure)).
Proof.
  intros Hread.
  assert (Hm : forall credential,
      run w (Hardcoded.generateModelImage File credential file)
      = ([FileRead file], Propagated failure)).
  { intros. now rewrite run_generateModelImage, Hread. }
  assert (Ht : forall credential modelImageUrl pm,
      Hardcoded.dataUrlToParts modelImageUrl = Return pm ->
      run w (Hardcoded.generateVirtualTryOnImage File credential
               modelImageUrl file)
      = ([FileRead file], Propagated failure)).
  { intros credential modelImageUrl pm Hpm.
    now rewrite run_generateVirtualTryOnImage, Hpm, Hread. }
  repeat split; try assumption.
  - intros env Hkey.
    destruct (configured_env File env Hkey) as (key & _ & _ & _ & E & _).
    rewrite E. apply Hm.
  - intros env modelImageUrl pm Hkey Hpm.
    destruct (configured_env File env Hkey) as (key & _ & _ & _ & _ & E & _).
    rewrite E. now apply (Ht key modelImageUrl pm).
Qed.

Lemma file_failure_propagates_witness :
  run Samples.offline
    (EnvKey.generateVirtualTryOnImage unit
       (Some {| EnvKey.VITE_API_KEY := Some (lit "key") |})
       (lit "data:image/png;base64,AAAA") tt)
  = ([FileRead tt], Propagated tt).
Proof.
  apply (proj2 (proj2 (proj2 (file_failure_propagates unit unit
           Samples.offline tt tt eq_refl)))
           (Some {| EnvKey.VITE_API_KEY := Some (lit "key") |})
           (lit "data:image/png;base64,AAAA")
           {| mimeType := lit "image/png"; data := lit "AAAA" |}).
  - reflexivity.
  - vm_compute. reflexivity.
Defined.

Lemma one_fixed_call_send (File Failure : Type) (w : World File Failure)
    (client : GenAI.GoogleGenAI) (parts : list GenAI.Part)
    (reads : list File) :
  one_fixed_call
    (let (es, o) := send w client parts in (map FileRead reads ++ es, o)).
Proof.
  unfold send, one_fixed_call. cbn [fst snd].
  assert (E : network_calls
                (map FileRead reads ++ [NetworkCall client (requestOf parts)])
              = [(client, requestOf parts)]).
  { unfold network_calls. rewrite flat_map_app. cbn [flat_map app].
    induction reads as [|f reads IH]; [reflexivity|exact IH]. }
  rewrite E. split; [apply le_n|]. constructor; [|constructor].
  split; reflexivity.
Qed.

Lemma one_fixed_call_silent (File Failure : Type) (reads : list File)
    (o : outcome Failure jsstring) :
  one_fixed_call (map FileRead reads, o).
Proof.
  unfold one_fixed_call. cbn [fst].
  assert (E : network_calls (map FileRead reads) = []).
  { induction reads as [|f reads IH]; [reflexivity|exact IH]. }
  rewrite E. split; [apply le_0_n|constructor].
Qed.

Lemma one_fixed_call_hardcoded (File Failure : Type) (w : World File Failure)
    (credential : jsstring) :
  (forall userImage,
      one_fixed_call
        (run w (Hardcoded.generateModelImage File credential userImage)))
  /\ (forall modelImageUrl garmentImage,
        one_fixed_call
          (run w (Hardcoded.generateVirtualTryOnImage File credential
                    modelImageUrl garmentImage)))
  /\ (forall tryOnImageUrl poseInstruction,
        one_fixed_call
          (run w (Hardcoded.generatePoseVariation File credential
                    tryOnImageUrl poseInstruction))).
Proof.
  split; [|split].
  - intros f. rewrite run_generateModelImage.
    destruct (readAsDataURL w f) as [u|e];
      [|exact (one_fixed_call_silent File Failure [f] _)].
    destruct (Hardcoded.dataUrlToParts u) as [p|m];
      [|exact (one_fixed_call_silent File Failure [f] _)].
    exact (one_fixed_call_send File Failure w _ _ [f]).
  - intros u g. rewrite run_generateVirtualTryOnImage.
    destruct (Hardcoded.dataUrlToParts u) as [pm|m];
      [|exact (one_fixed_call_silent File Failure [] _)].
    destruct (readAsDataURL w g) as [v|e];
      [|exact (one_fixed_call_silent File Failure [g] _)].
    destruct (Hardcoded.dataUrlToParts v) as [pg|m];
      [|exact (one_fixed_call_silent File Failure [g] _)].
    exact (one_fixed_call_send File Failure w _ _ [g]).
  - intros u s. rewrite run_generatePoseVariation.
    destruct (Hardcoded.dataUrlToParts u) as [p|m];
      [|exact (one_fixed_call_silent File Failure [] _)].
    exact (one_fixed_call_send File Failure w _ _ []).
Qed.

(** X6.  In any world and on any input, each of the three operations, in
    both variants, sends at most one request to the service (nothing is ever
    retried), and a request it sends names the model
    [gemini-2.5-flash-image-preview] and asks for the image and the text
    modalities. *)
Theorem operations_send_one_fixed_call (File Failure : Type)
    (w : World File Failure) :
  (forall credential userImage,
      one_fixed_call
        (run w (Hardcoded.generateModelImage File credential userImage)))
  /\ (forall credential modelImageUrl garmentImage,
        one_fixed_call
          (run w (Hardcoded.generateVirtualTryOnImage File credential
                    modelImageUrl garmentImage)))
  /\ (forall credential tryOnImageUrl poseInstruction,
        one_fixed_call
          (run w (Hardcoded.generatePoseVariation File credential
                    tryOnImageUrl poseInstruction)))
  /\ (forall env userImage,
        one_fixed_call (run w (EnvKey.generateModelImage File env userImage)))
  /\ (forall env modelImageUrl garmentImage,
        one_fixed_call
          (run w (EnvKey.generateVirtualTryOnImage File env modelImageUrl
                    garmentImage)))
  /\ (forall env tryOnImageUrl poseInstruction,
        one_fixed_call
          (run w (EnvKey.generatePoseVariation File env tryOnImageUrl
                    poseInstruction))).
Proof.
  split; [intros; apply one_fixed_call_hardcoded|].
  split; [intros; apply one_fixed_call_hardcoded|].
  split; [intros; apply one_fixed_call_hardcoded|].
  assert (Henv : forall env,
    (forall userImage,
        one_fixed_call (run w (EnvKey.generateModelImage File env userImage)))
    /\ (forall modelImageUrl garmentImage,
          one_fixed_call
            (run w (EnvKey.generateVirtualTryOnImage File env modelImageUrl
                      garmentImage)))
    /\ (forall tryOnImageUrl poseInstruction,
          one_fixed_call
            (run w (EnvKey.generatePoseVariation File env tryOnImageUrl
                      poseInstruction)))).
  { intros env. destruct (EnvKey.isApiKeyConfigured env) eqn:Hkey.
    - destruct (configured_env File env Hkey)
        as (key & _ & _ & _ & Em & Et & Ep).
      destruct (one_fixed_call_hardcoded File Failure w key) as (Hm & Ht & Hp).
      split; [|split]; intros.
      + rewrite Em. apply Hm.
      + rewrite Et. apply Ht.
      + rewrite Ep. apply Hp.
    - destruct (run_unconfigured File Failure w env Hkey) as (Em & Et & Ep).
      split; [|split]; intros.
      + rewrite Em. exact (one_fixed_call_silent File Failure [] _).
      + rewrite Et. exact (one_fixed_call_silent File Failure [] _).
      + rewrite Ep. exact (one_fixed_call_silent File Failure [] _). }
  split; [|split]; intros env; intros; apply (Henv env).
Qed.

Lemma network_calls_reads (File : Type) (reads : list File)
    (es : list (event File)) :
  network_calls (map FileRead reads ++ es) = network_calls es.
Proof.
  unfold network_calls. rewrite flat_map_app.
  induction reads as [|f reads IH]; [reflexivity|exact IH].
Qed.

Lemma settles_send (File Failure : Type) (w : World File Failure)
    (client : GenAI.GoogleGenAI) (parts : list GenAI.Part)
    (reads : list File) :
  settles_by_decoding w
    (let (es, o) := send w client parts in (map FileRead reads ++ es, o)).
Proof.
  unfold send, settles_by_decoding. cbn [fst snd].
  rewrite network_calls_reads. cbn [network_calls flat_map app].
  intros c params [H|[]]. injection H as <- <-. reflexivity.
Qed.

Lemma settles_silent (File Failure : Type) (w : World File Failure)
    (reads : list File) (o : outcome Failure jsstring) :
  settles_by_decoding w (map FileRead reads, o).
Proof.
  unfold settles_by_decoding. cbn [fst].
  rewrite <- (app_nil_r (map FileRead reads)), network_calls_reads.
  intros c params [].
Qed.

Lemma settles_hardcoded (File Failure : Type) (w : World File Failure)
    (credential : jsstring) :
  (forall userImage,
      settles_by_decoding w
        (run w (Hardcoded.generateModelImage File credential userImage)))
  /\ (forall modelImageUrl garmentImage,
        settles_by_decoding w
          (run w (Hardcoded.generateVirtualTryOnImage File credential
                    modelImageUrl garmentImage)))
  /\ (forall tryOnImageUrl poseInstruction,
        settles_by_decoding w
          (run w (Hardcoded.generatePoseVariation File credential
                    tryOnImageUrl poseInstruction))).
Proof.
  split; [|split].
  - intros f. rewrite run_generateModelImage.
    destruct (readAsDataURL w f) as [u|e];
      [|exact (settles_silent File Failure w [f] _)].
    destruct (Hardcoded.dataUrlToParts u) as [p|m];
      [|exact (settles_silent File Failure w [f] _)].
    exact (settles_send File Failure w _ _ [f]).
  - intros u g. rewrite run_generateVirtualTryOnImage.
    destruct (Hardcoded.dataUrlToParts u) as [pm|m];
      [|exact (settles_silent File Failure w [] _)].
    destruct (readAsDataURL w g) as [v|e];
      [|exact (settles_silent File Failure w [g] _)].
    destruct (Hardcoded.dataUrlToParts v) as [pg|m];
      [|exact (settles_silent File Failure w [g] _)].
    exact (settles_send File Failure w _ _ [g]).
  - intros u s. rewrite run_generatePoseVariation.
    destruct (Hardcoded.dataUrlToParts u) as [p|m];
      [|exact (settles_silent File Failure w [] _)].
    exact (settles_send File Failure w _ _ []).
Qed.

(** X7.  Whenever an operation has sent a request, its promise settles as
    the decoding of the answer to that request ([handleApiResponse]: the
    Image Reference, or the decode error), and when the call itself fails the
    failure is passed on unchanged; this holds for the three operations in
    both variants, in any world. *)
Theorem operations_settle_by_decoding (File Failure : Type)
    (w : World File Failure) (client : GenAI.GoogleGenAI)
    (params : GenAI.GenerateContentParameters)
    (result : list (event File) * outcome Failure jsstring) :
  (exists credential userImage,
      result = run w (Hardcoded.generateModelImage File credential userImage))
  \/ (exists credential modelImageUrl garmentImage,
        result = run w (Hardcoded.generateVirtualTryOnImage File credential
                          modelImageUrl garmentImage))
  \/ (exists credential tryOnImageUrl poseInstruction,
        result = run w (Hardcoded.generatePoseVariation File credential
                          tryOnImageUrl poseInstruction))
  \/ (exists env userImage,
        result = run w (EnvKey.generateModelImage File env userImage))
  \/ (exists env modelImageUrl garmentImage,
        result = run w (EnvKey.generateVirtualTryOnImage File env
                          modelImageUrl garmentImage))
  \/ (exists env tryOnImageUrl poseInstruction,
        result = run w (EnvKey.generatePoseVariation File env tryOnImageUrl
                          poseInstruction)) ->
  In (client, params) (network_calls (fst result)) ->
  snd result
  = match generateContent w client params with
    | inl r => settle (EnvKey.handleApiResponse r)
    | inr e => Propagated e
    end.
Proof.
  intros Hop. rewrite handleApiResponse_variants.
  revert client params. change (settles_by_decoding w result).
  assert (Henv : forall env,
    (forall userImage,
        settles_by_decoding w
          (run w (EnvKey.generateModelImage File env userImage)))
    /\ (forall modelImageUrl garmentImage,
          settles_by_decoding w
            (run w (EnvKey.generateVirtualTryOnImage File env modelImageUrl
                      garmentImage)))
    /\ (forall tryOnImageUrl poseInstruction,
          settles_by_decoding w
            (run w (EnvKey.generatePoseVariation File env tryOnImageUrl
                      poseInstruction)))).
  { intros env. destruct (EnvKey.isApiKeyConfigured env) eqn:Hkey.
    - destruct (configured_env File env Hkey)
        as (key & _ & _ & _ & Em & Et & Ep).
      destruct (settles_hardcoded File Failure w key) as (Hm & Ht & Hp).
      split; [|split]; intros.
      + rewrite Em. apply Hm.
      + rewrite Et. apply Ht.
      + rewrite Ep. apply Hp.
    - destruct (run_unconfigured File Failure w env Hkey) as (Em & Et & Ep).
      split; [|split]; intros.
      + rewrite Em. exact (settles_silent File Failure w [] _).
      + rewrite Et. exact (settles_silent File Failure w [] _).
      + rewrite Ep. exact (settles_silent File Failure w [] _). }
  destruct Hop as [(c & f & ->) | [(c & u & g & ->) | [(c & u & s & ->)
    | [(env & f & ->) | [(env & u & g & ->) | (env & u & s & ->)]]]]].
  - apply settles_hardcoded.
  - apply settles_hardcoded.
  - apply settles_hardcoded.
  - apply (Henv env).
  - apply (Henv env).
  - apply (Henv env).
Qed.

Lemma operations_settle_by_decoding_witness :
  snd (run Samples.online
         (EnvKey.generateModelImage unit
            (Some {| EnvKey.VITE_API_KEY := Some (lit "key") |}) tt))
  = (Fulfilled (lit "data:image/png;base64,BBBB") : outcome unit jsstring).
Proof.
  apply (operations_settle_by_decoding unit unit Samples.online
           {| GenAI.apiKey := Some (lit "key") |}
           (requestOf [ Samples.imagePart (lit "image/png") (lit "AAAA");
                        GenAI.textPart EnvKey.modelPrompt ])
           (run Samples.online
              (EnvKey.generateModelImage unit
                 (Some {| EnvKey.VITE_API_KEY := Some (lit "key") |}) tt))).
  - right. right. right. left.
    exists (Some {| EnvKey.VITE_API_KEY := Some (lit "key") |}), tt.
    reflexivity.
  - vm_compute. left. reflexivity.
Defined.

(** ** The key check *)

(** X8.  The exported check predicts the client: [isApiKeyConfigured] is
    true exactly when the environment exists and holds a non-empty
    [VITE_API_KEY], and exactly then [getAiInstance] returns a client, which
    carries that key; otherwise [getAiInstance] throws the configuration
    error. *)
Theorem key_check_predicts_client (env : option EnvKey.ImportMetaEnv) :
  (EnvKey.isApiKeyConfigured env = true
   <-> exists e key,
         env = Some e /\ EnvKey.VITE_API_KEY e = Some key /\ key <> [])
  /\ (EnvKey.isApiKeyConfigured env = true
      <-> exists key,
            key <> []
            /\ EnvKey.getAiInstance env
               = Return {| GenAI.apiKey := Some key |}
            /\ EnvKey.API_KEY env = Some key)
  /\ (EnvKey.isApiKeyConfigured env = false
      <-> EnvKey.getAiInstance env = Throw ConfigurationError).
Proof.
  split; [|split].
  - unfold EnvKey.isApiKeyConfigured, EnvKey.API_KEY. rewrite negb_involutive.
    split.
    + destruct env as [e|]; [|discriminate].
      destruct (EnvKey.VITE_API_KEY e) as [[|x key]|] eqn:E; try discriminate.
      intros _. exists e, (x :: key). repeat split; [assumption|discriminate].
    + intros (e & key & -> & -> & Hne). now apply truthy_some.
  - split.
    + intros H. destruct (getAiInstance_configured env H) as (key & Hk & Hne & Hg).
      exists key. auto.
    + intros (key & Hne & _ & Hk).
      unfold EnvKey.isApiKeyConfigured. rewrite Hk, negb_involutive.
      now apply truthy_some.
  - split; [apply getAiInstance_unconfigured|].
    destruct (EnvKey.isApiKeyConfigured env) eqn:E; [|reflexivity].
    destruct (getAiInstance_configured env E) as (key & _ & _ & Hg).
    rewrite Hg. discriminate.
Qed.

Lemma third_unit_of_decode_error (r : GenAI.GenerateContentResponse)
    (message : jsstring) :
  Hardcoded.handleApiResponse r = Throw message -> nth 2 message 0 <> 99.
Proof.
  unfold Hardcoded.handleApiResponse.
  destruct (truthy (chain (GenAI.promptFeedback r) GenAI.blockReason)).
  { intros [= <-]. vm_compute. discriminate. }
  destruct (Hardcoded.scan_candidates _); [discriminate|].
  destruct (truthy _ && _).
  { intros [= <-]. vm_compute. discriminate. }
  destruct (truthy (option_map trim (GenAI.response_text r)));
    intros [= <-]; vm_compute; discriminate.
Qed.

Lemma third_unit_of_parse_error (s message : jsstring) :
  Hardcoded.dataUrlToParts s = Throw message -> nth 2 message 0 <> 99.
Proof.
  unfold Hardcoded.dataUrlToParts.
  destruct (Nat.ltb _ 2).
  { intros [= <-]. vm_compute. discriminate. }
  destruct (match_mime _) as [g|].
  - destruct (negb (truthy (Some g))); [|discriminate].
    intros [= <-]. vm_compute. discriminate.
  - intros [= <-]. vm_compute. discriminate.
Qed.

Lemma third_unit_of_send (File Failure : Type) (w : World File Failure)
    (client : GenAI.GoogleGenAI) (parts : list GenAI.Part)
    (message : jsstring) :
  snd (@send File Failure w client parts) = Rejected message ->
  nth 2 message 0 <> 99.
Proof.
  unfold send. cbn [snd].
  destruct (generateContent w client (requestOf parts)) as [r|e];
    [|discriminate].
  destruct (Hardcoded.handleApiResponse r) as [u|m] eqn:E; [discriminate|].
  intros [= <-]. exact (third_unit_of_decode_error r m E).
Qed.

Lemma third_unit_after_reads (File Failure : Type) (w : World File Failure)
    (client : GenAI.GoogleGenAI) (parts : list GenAI.Part) (f : File)
    (message : jsstring) :
  snd (let (es, o) := @send File Failure w client parts in (FileRead f :: es, o))
  = Rejected message ->
  nth 2 message 0 <> 99.
Proof. apply third_unit_of_send. Qed.

(** X9.  With a key configured, no operation is ever rejected with the
    configuration error, in any world and on any input: the rejections that
    remain are those of the parser and of the decode procedure. *)
Theorem configured_never_configuration_error (File Failure : Type)
    (w : World File Failure) (env : option EnvKey.ImportMetaEnv) :
  EnvKey.isApiKeyConfigured env = true ->
  (forall userImage,
      snd (run w (EnvKey.generateModelImage File env userImage))
      <> Rejected ConfigurationError)
  /\ (forall modelImageUrl garmentImage,
        snd (run w (EnvKey.generateVirtualTryOnImage File env modelImageUrl
                      garmentImage))
        <> Rejected ConfigurationError)
  /\ (forall tryOnImageUrl poseInstruction,
        snd (run w (EnvKey.generatePoseVariation File env tryOnImageUrl
                      poseInstruction))
        <> Rejected ConfigurationError).
Proof.
  intros Hkey.
  destruct (configured_env File env Hkey) as (key & _ & _ & _ & Em & Et & Ep).
  assert (Hc : nth 2 ConfigurationError 0 = 99) by (vm_compute; reflexivity).
  split; [|split].
  - intros f H. rewrite Em, run_generateModelImage in H.
    destruct (readAsDataURL w f) as [u|e]; [|discriminate].
    destruct (Hardcoded.dataUrlToParts u) as [p|m] eqn:E.
    + exact (third_unit_after_reads File Failure w _ _ f _ H Hc).
    + injection H as ->. exact (third_unit_of_parse_error u _ E Hc).
  - intros u g H. rewrite Et, run_generateVirtualTryOnImage in H.
    destruct (Hardcoded.dataUrlToParts u) as [pm|m] eqn:E.
    + destruct (readAsDataURL w g) as [v|e]; [|discriminate].
      destruct (Hardcoded.dataUrlToParts v) as [pg|m] eqn:E'.
      * exact (third_unit_after_reads File Failure w _ _ g _ H Hc).
      * injection H as ->. exact (third_unit_of_parse_error v _ E' Hc).
    + injection H as ->. exact (third_unit_of_parse_error u _ E Hc).
  - intros u s H. rewrite Ep, run_generatePoseVariation in H.
    destruct (Hardcoded.dataUrlToParts u) as [p|m] eqn:E.
    + exact (third_unit_of_send File Failure w _ _ _ H Hc).
    + injection H as ->. exact (third_unit_of_parse_error u _ E Hc).
Qed.

Lemma configured_never_configuration_error_witness :
  snd (run Samples.offline
         (EnvKey.generatePoseVariation unit
            (Some {| EnvKey.VITE_API_KEY := Some (lit "key") |})
            (lit "no separator") (lit "top-down view")))
  <> Rejected ConfigurationError.
Proof.
  apply (proj2 (proj2 (configured_never_configuration_error unit unit
           Samples.offline
           (Some {| EnvKey.VITE_API_KEY := Some (lit "key") |}) eq_refl))
           (lit "no separator") (lit "top-down view")).
Defined.

(** X10.  The operations of the environment variant are those of the
    variant with the credential in the file, preceded by the key check: with
    a key configured each is the same program as its counterpart run with
    that key as credential, and without one each is the rejection with the
    configuration error. *)
Theorem operations_agree_across_variants (File : Type)
    (env : option EnvKey.ImportMetaEnv) :
  (EnvKey.isApiKeyConfigured env = true ->
   exists key,
     EnvKey.API_KEY env = Some key
     /\ (forall userImage,
           EnvKey.generateModelImage File env userImage
           = Hardcoded.generateModelImage File key userImage)
     /\ (forall modelImageUrl garmentImage,
           EnvKey.generateVirtualTryOnImage File env modelImageUrl garmentImage
           = Hardcoded.generateVirtualTryOnImage File key modelImageUrl
               garmentImage)
     /\ (forall tryOnImageUrl poseInstruction,
           EnvKey.generatePoseVariation File env tryOnImageUrl poseInstruction
           = Hardcoded.generatePoseVariation File key tryOnImageUrl
               poseInstruction))
  /\ (EnvKey.isApiKeyConfigured env = false ->
      (forall userImage,
          EnvKey.generateModelImage File env userImage
          = Reject ConfigurationError)
      /\ (forall modelImageUrl garmentImage,
            EnvKey.generateVirtualTryOnImage File env modelImageUrl garmentImage
            = Reject ConfigurationError)
      /\ (forall tryOnImageUrl poseInstruction,
            EnvKey.generatePoseVariation File env tryOnImageUrl poseInstruction
            = Reject ConfigurationError)).
Proof.
  split.
  - intros Hkey.
    destruct (configured_env File env Hkey) as (key & Hk & _ & _ & Em & Et & Ep).
    exists key. auto.
  - intros Hkey. apply getAiInstance_unconfigured in Hkey.
    unfold EnvKey.generateModelImage, EnvKey.generateVirtualTryOnImage,
      EnvKey.generatePoseVariation.
    rewrite Hkey. repeat split.
Qed.

Lemma operations_agree_across_variants_witness :
  EnvKey.generatePoseVariation unit
    (Some {| EnvKey.VITE_API_KEY := Some (lit "key") |})
    (lit "data:image/png;base64,AAAA") (lit "top-down view")
  = Hardcoded.generatePoseVariation unit (lit "key")
      (lit "data:image/png;base64,AAAA") (lit "top-down view")
  /\ EnvKey.generateModelImage unit None tt = Reject ConfigurationError.
Proof.
  split.
  - destruct (proj1 (operations_agree_across_variants unit
                       (Some {| EnvKey.VITE_API_KEY := Some (lit "key") |}))
                eq_refl) as (key & Hk & _ & _ & Hp).
    injection Hk as <-. apply Hp.
  - apply (proj1 (proj2 (operations_agree_across_variants unit None) eq_refl) tt).
Defined.

(** ** Decoding and parsing together *)

(** X11.  Decode returns an Image Reference exactly when the response signals
    no block reason and some part of some candidate carries embedded image
    data; in every other case it throws. *)
Theorem decode_succeeds_iff (r : GenAI.GenerateContentResponse) :
  (exists reference, decodes_to r (Return reference))
  <-> (no_block_reason r /\ ~ Forall no_image (or_nil (GenAI.candidates r))).
Proof.
  split.
  - intros (u & H & _).
    assert (Hr : no_block_reason r).
    { unfold no_block_reason. unfold Hardcoded.handleApiResponse in H.
      destruct (truthy (chain (GenAI.promptFeedback r) GenAI.blockReason));
        [discriminate|reflexivity]. }
    split; [assumption|]. intros Hall.
    rewrite no_image_cases in H by assumption.
    destruct (truthy (first_status r) && _); [discriminate|].
    destruct (truthy (option_map trim (GenAI.response_text r))); discriminate.
  - intros [Hr Himg].
    destruct (Hardcoded.scan_candidates (or_nil (GenAI.candidates r)))
      as [u|] eqn:E.
    + exists u. apply decodes_to_intro.
      rewrite handleApiResponse_unblocked by assumption. now rewrite E.
    + apply scan_candidates_none in E. contradiction.
Qed.

Lemma lazy_group_semicolon_app (m post : jsstring) :
  ~ In semicolon m -> forallb dot m = true ->
  lazy_group_semicolon (m ++ semicolon :: post) = Some m.
Proof.
  intros Hm Hd. apply lazy_group_semicolon_spec. exists post. auto.
Qed.

Lemma reference_header (m : jsstring) :
  ~ In comma m -> ~ In semicolon m -> forallb dot m = true ->
  ~ In comma (lit "data:" ++ m ++ lit ";base64")
  /\ match_mime (lit "data:" ++ m ++ lit ";base64") = Some m.
Proof.
  intros Hc Hs Hd. split.
  - intros H. apply in_app_or in H as [H|H].
    + revert H. apply not_in_units. vm_compute. reflexivity.
    + apply in_app_or in H as [H|H]; [contradiction|].
      revert H. apply not_in_units. vm_compute. reflexivity.
  - change (lit "data:") with [100; 97; 116; 97; colon].
    change (lit ";base64") with (semicolon :: lit "base64").
    cbn [app match_mime N.eqb Pos.eqb colon].
    now rewrite lazy_group_semicolon_app.
Qed.

Lemma image_reference_split (mediaType payload : option jsstring) :
  image_reference {| GenAI.mimeType := mediaType; GenAI.data := payload |}
  = (lit "data:" ++ interpolate mediaType ++ lit ";base64")
    ++ comma :: interpolate payload.
Proof.
  unfold image_reference. cbn [GenAI.mimeType GenAI.data].
  change (lit ";base64,") with (lit ";base64" ++ [comma]).
  now rewrite <- !app_assoc.
Qed.

(** X12.  An Image Reference that decode builds from embedded image data
    parses back to that data: when the media type is non-empty and free of
    [,], [;] and line terminators and the payload is free of [,], parsing the
    reference gives exactly that media type and payload, and the embedded
    image part that the next operation builds from it is the part the service
    returned. *)
Theorem decoded_reference_parses (m d : jsstring) :
  m <> [] -> ~ In comma m -> ~ In semicolon m -> forallb dot m = true ->
  ~ In comma d ->
  parses_to
    (image_reference {| GenAI.mimeType := Some m; GenAI.data := Some d |})
    (Return {| mimeType := m; data := d |})
  /\ Hardcoded.dataUrlToPart
       (image_reference {| GenAI.mimeType := Some m; GenAI.data := Some d |})
     = Return {| GenAI.inlineData :=
                   Some {| GenAI.mimeType := Some m; GenAI.data := Some d |};
                 GenAI.text := None |}.
Proof.
  intros Hne Hc Hs Hd Hdc.
  destruct (reference_header m Hc Hs Hd) as [Hh Hm].
  assert (H : Hardcoded.dataUrlToParts
                (image_reference
                   {| GenAI.mimeType := Some m; GenAI.data := Some d |})
              = Return {| mimeType := m; data := d |}).
  { rewrite image_reference_split. cbn [interpolate].
    rewrite dataUrlToParts_header by assumption. rewrite Hm.
    rewrite truthy_some by assumption. cbn [interpolate].
    now rewrite before_separator_whole. }
  split; [now apply parses_to_intro|].
  unfold Hardcoded.dataUrlToPart. rewrite H. reflexivity.
Qed.

Lemma decoded_reference_parses_witness :
  parses_to
    (image_reference
       {| GenAI.mimeType := Some (lit "image/png");
          GenAI.data := Some (lit "iVBORw0KGgo=") |})
    (Return {| mimeType := lit "image/png"; data := lit "iVBORw0KGgo=" |}).
Proof.
  apply (proj1 (decoded_reference_parses (lit "image/png") (lit "iVBORw0KGgo=")
                  ltac:(discriminate)
                  ltac:(apply not_in_units; vm_compute; reflexivity)
                  ltac:(apply not_in_units; vm_compute; reflexivity)
                  ltac:(vm_compute; reflexivity)
                  ltac:(apply not_in_units; vm_compute; reflexivity))).
Defined.

(** X13.  What decode builds from unvalidated embedded data, the parser of
    the next operation treats as follows, whatever the payload: the reference
    of an empty media type is rejected with the FormatError of the media type,
    and the reference of an absent media type parses, with the media type
    [undefined]. *)
Theorem unvalidated_reference_downstream (payload : option jsstring) :
  parses_to
    (image_reference {| GenAI.mimeType := Some []; GenAI.data := payload |})
    (Throw FormatError_media_type)
  /\ parses_to
       (image_reference {| GenAI.mimeType := None; GenAI.data := payload |})
       (Return {| mimeType := lit "undefined";
                  data := before_separator comma (interpolate payload) |}).
Proof.
  split; apply parses_to_intro; rewrite image_reference_split.
  - rewrite dataUrlToParts_header.
    + assert (E : match_mime (lit "data:" ++ interpolate (Some []) ++ lit ";base64")
                  = Some []) by (vm_compute; reflexivity).
      rewrite E. reflexivity.
    + apply not_in_units. vm_compute. reflexivity.
  - rewrite dataUrlToParts_header.
    + assert (E : match_mime (lit "data:" ++ interpolate None ++ lit ";base64")
                  = Some (lit "undefined")) by (vm_compute; reflexivity).
      rewrite E. reflexivity.
    + apply not_in_units. vm_compute. reflexivity.
Qed.

Lemma before_separator_split (sep : N) (s : jsstring) :
  ~ In sep (before_separator sep s)
  /\ exists tail, s = before_separator sep s ++ tail
       /\ (tail = [] \/ exists t, tail = sep :: t).
Proof.
  induction s as [|c s [IH1 (tail & IH2 & IH3)]]; simpl.
  - split; [tauto|]. exists []. auto.
  - destruct (N.eqb_spec c sep) as [->|Hc].
    + split; [simpl; tauto|]. exists (sep :: s). split; [reflexivity|].
      right. now exists s.
    + split; [simpl; intros [H|H]; [congruence|contradiction]|].
      exists tail. split; [simpl; now rewrite <- IH2|assumption].
Qed.

(** X14.  What the parser returns is always well-formed: the media type is
    non-empty and holds no [;], no [,] and no line terminator, the payload
    holds no [,], and the input reads header, [,], payload, then nothing or a
    further [,]; the media type stands in the header between a [:] and a
    [;]. *)
Theorem parse_result_shape (s : jsstring) (p : DataUrlParts) :
  Hardcoded.dataUrlToParts s = Return p ->
  mimeType p <> []
  /\ ~ In semicolon (mimeType p) /\ ~ In comma (mimeType p)
  /\ forallb dot (mimeType p) = true
  /\ ~ In comma (data p)
  /\ exists pre post tail,
       s = (pre ++ colon :: mimeType p ++ semicolon :: post)
           ++ comma :: data p ++ tail
       /\ ~ In comma pre /\ ~ In comma post
       /\ (tail = [] \/ exists t, tail = comma :: t).
Proof.
  intros H.
  destruct (in_dec N.eq_dec comma s) as [Hin|Hout];
    [|rewrite dataUrlToParts_no_separator in H by assumption; discriminate].
  destruct (first_separator comma s Hin) as (h & rest & -> & Hh).
  rewrite dataUrlToParts_header in H by assumption.
  destruct (match_mime h) as [[|x m]|] eqn:E; try discriminate.
  cbn [truthy interpolate] in H. injection H as <-. cbn [mimeType data].
  apply match_mime_spec in E.
  destruct E as (pre & t & -> & (post & -> & Hs & Hd) & _).
  destruct (before_separator_split comma rest) as [Hp (tail & Hrest & Htail)].
  assert (Hparts : ~ In comma pre /\ ~ In comma (x :: m) /\ ~ In comma post).
  { repeat split; intros Hc; apply Hh; apply in_or_app.
    - now left.
    - right. right. apply in_or_app. now left.
    - right. right. apply in_or_app. right. now right. }
  destruct Hparts as (Hpre & Hm & Hpost).
  split; [discriminate|]. repeat (split; [assumption|]).
  exists pre, post, tail. split; [now rewrite <- Hrest|]. auto.
Qed.

Lemma parse_result_shape_witness :
  mimeType {| mimeType := lit "image/png"; data := lit "AA" |} <> []
  /\ ~ In comma (data {| mimeType := lit "image/png"; data := lit "AA" |}).
Proof.
  destruct (parse_result_shape (lit "data:image/png;base64,AA,BB")
              {| mimeType := lit "image/png"; data := lit "AA" |}
              ltac:(vm_compute; reflexivity)) as (H1 & _ & _ & _ & H2 & _).
  split; assumption.
Defined.

(** ** The failure messages *)

(** X15.  The failures can be told apart by their messages alone: whatever
    the block reason, its message, the completion-status and the quoted text,
    the messages of Blocked, Interrupted, NoImage with text, generic NoImage,
    the configuration error and the two FormatErrors are pairwise
    different. *)
Theorem failure_messages_distinct (reason message status quoted : jsstring) :
  NoDup [ Blocked reason message; Interrupted status;
          NoImage_with_text quoted; NoImage_generic; ConfigurationError;
          FormatError_separator; FormatError_media_type ].
Proof.
  repeat (constructor;
          [ cbn [In]; intros H;
            repeat (destruct H as [H|H]; [differ H|]); exact H | ]).
  constructor.
Qed.

Lemma NoImage_with_text_inj (a b : jsstring) :
  NoImage_with_text a = NoImage_with_text b -> a = b.
Proof.
  unfold NoImage_with_text. intros H.
  apply app_inv_head in H. apply app_inv_head in H.
  cbn [app] in H. injection H as H. now apply app_inv_tail in H.
Qed.

Lemma trimStart_spec (s : jsstring) :
  exists lead,
    s = lead ++ trimStart s /\ forallb isWhiteSpace lead = true
    /\ forall c rest, trimStart s = c :: rest -> isWhiteSpace c = false.
Proof.
  induction s as [|x s (lead & IH1 & IH2 & IH3)].
  - exists []. repeat split. discriminate.
  - cbn [trimStart]. destruct (isWhiteSpace x) eqn:E.
    + exists (x :: lead). split; [cbn [app]; now rewrite <- IH1|].
      split; [cbn [forallb]; now rewrite E|assumption].
    + exists []. repeat split. intros c rest [= <- _]. assumption.
Qed.

Lemma forallb_rev (f : N -> bool) (l : jsstring) :
  forallb f l = true -> forallb f (rev l) = true.
Proof.
  rewrite !forallb_forall. intros H x Hx. apply H. now apply in_rev.
Qed.

Lemma trimEnd_spec (s : jsstring) :
  exists trail,
    s = trimEnd s ++ trail /\ forallb isWhiteSpace trail = true
    /\ forall rest c, trimEnd s = rest ++ [c] -> isWhiteSpace c = false.
Proof.
  unfold trimEnd. destruct (trimStart_spec (rev s)) as (lead & H1 & H2 & H3).
  exists (rev lead). split; [|split].
  - rewrite <- rev_app_distr, <- H1. symmetry. apply rev_involutive.
  - now apply forallb_rev.
  - intros rest c H. apply (H3 c (rev rest)).
    rewrite <- (rev_involutive (trimStart (rev s))), H, rev_app_distr.
    reflexivity.
Qed.

Lemma trim_spec (s : jsstring) :
  exists lead trail,
    s = lead ++ trim s ++ trail
    /\ forallb isWhiteSpace lead = true /\ forallb isWhiteSpace trail = true
    /\ ~ padded (trim s).
Proof.
  unfold trim. destruct (trimStart_spec s) as (lead & H1 & H2 & H3).
  destruct (trimEnd_spec (trimStart s)) as (trail & H4 & H5 & H6).
  exists lead, trail. split; [now rewrite <- H4|]. split; [assumption|].
  split; [assumption|].
  intros [(c & rest & Hq & Hw) | (rest & c & Hq & Hw)].
  - rewrite Hq in H4. cbn [app] in H4.
    rewrite (H3 c _ H4) in Hw. discriminate.
  - rewrite (H6 rest c Hq) in Hw. discriminate.
Qed.

(** X16.  Whenever decode fails with the NoImage error that quotes a text,
    the quoted text is the text of the response with the white space around
    it removed: it is non-empty, neither begins nor ends with white space,
    and the text of the response is the quoted text between two runs of white
    space. *)
Theorem no_image_quotes_trimmed_text (r : GenAI.GenerateContentResponse)
    (quoted : jsstring) :
  Hardcoded.handleApiResponse r = Throw (NoImage_with_text quoted) ->
  exists t lead trail,
    GenAI.response_text r = Some t
    /\ quoted = trim t
    /\ t = lead ++ quoted ++ trail
    /\ forallb isWhiteSpace lead = true /\ forallb isWhiteSpace trail = true
    /\ quoted <> [] /\ ~ padded quoted.
Proof.
  intros H.
  assert (Hr : no_block_reason r).
  { unfold no_block_reason. unfold Hardcoded.handleApiResponse in H.
    destruct (truthy (chain (GenAI.promptFeedback r) GenAI.blockReason));
      [|reflexivity].
    differ_thrown H. }
  rewrite handleApiResponse_unblocked in H by assumption.
  destruct (Hardcoded.scan_candidates _); [discriminate|].
  destruct (truthy (first_status r) && _); [differ_thrown H|].
  destruct (GenAI.response_text r) as [t|]; cbn [option_map] in H.
  - destruct (truthy (Some (trim t))) eqn:E.
    + cbn [interpolate] in H.
      apply (f_equal (fun c : completion jsstring =>
                        match c with
                        | Throw m => m
                        | Return _ => []
                        end)) in H.
      apply NoImage_with_text_inj in H. subst quoted. destruct (trim_spec t) as (lead & trail & H1 & H2 & H3 & H4).
      exists t, lead, trail.
      split; [reflexivity|]. split; [reflexivity|]. split; [assumption|].
      split; [assumption|]. split; [assumption|]. split; [|assumption].
      intros E'. rewrite E' in E. discriminate.
    + differ_thrown H.
  - cbn [truthy] in H. differ_thrown H.
Qed.

Lemma no_image_quotes_trimmed_text_witness :
  exists t lead trail,
    GenAI.response_text
      (Samples.response
         [Samples.candidate [GenAI.textPart (lit " no image ")] (lit "STOP")]
         (Some (lit " no image "))) = Some t
    /\ lit "no image" = trim t
    /\ t = lead ++ lit "no image" ++ trail
    /\ forallb isWhiteSpace lead = true /\ forallb isWhiteSpace trail = true
    /\ lit "no image" <> [] /\ ~ padded (lit "no image").
Proof.
  apply (no_image_quotes_trimmed_text
           (Samples.response
              [Samples.candidate [GenAI.textPart (lit " no image ")]
                 (lit "STOP")]
              (Some (lit " no image ")))
           (lit "no image")).
  vm_compute. reflexivity.
Defined.

(** X17.  With a key configured, when the composite Image Reference parses,
    the pose operation reads no file and sends exactly one request, whose
    parts are the embedded image parsed from the reference followed by the
    prompt text with the caller's instruction in it. *)
Theorem pose_request (File Failure : Type) (w : World File Failure)
    (env : option EnvKey.ImportMetaEnv)
    (tryOnImageUrl poseInstruction : jsstring) (p : DataUrlParts) :
  EnvKey.isApiKeyConfigured env = true ->
  EnvKey.dataUrlToParts tryOnImageUrl = Return p ->
  fst (run w (EnvKey.generatePoseVariation File env tryOnImageUrl
                poseInstruction))
  = [ NetworkCall (clientOf env)
        (requestOf [ imagePartOf p;
                     GenAI.textPart
                       (pose_before ++ poseInstruction ++ pose_after) ]) ].
Proof.
  intros Hkey Hparse.
  destruct (configured_env File env Hkey) as (key & _ & _ & Hc & _ & _ & Ep).
  rewrite Ep, run_generatePoseVariation.
  rewrite dataUrlToParts_variants in Hparse. rewrite Hparse, Hc.
  unfold send. cbn [fst].
  unfold Hardcoded.posePrompt, pose_before, pose_after.
  rewrite <- !app_assoc. reflexivity.
Qed.

Lemma pose_request_witness :
  fst (run Samples.offline
         (EnvKey.generatePoseVariation unit
            (Some {| EnvKey.VITE_API_KEY := Some (lit "key") |})
            (lit "data:image/png;base64,AAAA") (lit "top-down view")))
  = [ NetworkCall {| GenAI.apiKey := Some (lit "key") |}
        (requestOf [ Samples.imagePart (lit "image/png") (lit "AAAA");
                     GenAI.textPart
                       (pose_before ++ lit "top-down view" ++ pose_after) ]) ].
Proof.
  apply (pose_request unit unit Samples.offline
           (Some {| EnvKey.VITE_API_KEY := Some (lit "key") |})
           (lit "data:image/png;base64,AAAA") (lit "top-down view")
           {| mimeType := lit "image/png"; data := lit "AAAA" |}).
  - reflexivity.
  - vm_compute. reflexivity.
Defined.
